(** * A shallow embedding of the dual-axis bar chart visual ([src/barChart.ts])

    The visual is TypeScript compiled to JavaScript and run by a host.  The
    embedding follows the run-time behaviour of the code:

    - a value the host hands over or persists is a dynamically typed
      JavaScript value ([Value]);
    - an optional member of a host interface is an [option]; indexing an
      array out of range yields [undefined] ([nth_error]);
    - reading a property of [undefined] throws a [TypeError]; the code runs
      in a state-and-error monad in which the state written before a throw
      is kept, as JavaScript keeps it;
    - the host services (colour palette, selection-identifier builder) are
      an interface ([IVisualHost]) whose calls thread the host's state;
    - the drawing library (d3 scales) and the JavaScript number/string
      conversions are interfaces as well ([D3], [JSRuntime]);
    - numbers are exact rationals; the result of an arithmetic operation is
      a [number], where [None] stands for a non-finite result (NaN or an
      infinity).  Rounding of binary floating point is not modelled. *)

From Stdlib Require Import List String Ascii ZArith QArith Qreduction Qminmax Qround.
From Stdlib Require Import Bool Arith Lia DecimalString.
Import ListNotations.

Set Implicit Arguments.

Local Open Scope string_scope.
Local Open Scope list_scope.

(** ** JavaScript values *)

#[warnings="-register-all"]
Inductive Value : Type :=
| VUndefined
| VNull
| VBool (b : bool)
| VNum (q : Q)
| VStr (s : string)
| VObj (props : list (string * Value)).

(** The result of JavaScript arithmetic: [Some q] is the finite number [q],
    [None] a non-finite one.  In this program the only divisors are the
    literals 100 and 4 and the field [vaxis]. *)
Definition number : Type := option Q.

Definition nlift2 (f : Q -> Q -> Q) (a b : number) : number :=
  match a, b with
  | Some x, Some y => Some (Qred (f x y))
  | _, _ => None
  end.

Definition nmul : number -> number -> number := nlift2 Qmult.
Definition nadd : number -> number -> number := nlift2 Qplus.
Definition nsub : number -> number -> number := nlift2 Qminus.

Definition ndiv (a b : number) : number :=
  match a, b with
  | Some x, Some y => if Qeq_bool y 0 then None else Some (Qred (x / y))
  | _, _ => None
  end.

Definition ofZ (z : Z) : number := Some (inject_Z z).

Arguments nmul : simpl never.
Arguments nadd : simpl never.
Arguments nsub : simpl never.
Arguments ndiv : simpl never.

(** The conversions the language run time performs, which this program
    does not define. *)
Class JSRuntime : Type := {
  numberToString : Q -> string;
  stringToNumber : string -> number
}.

Fixpoint assoc {A : Type} (k : string) (l : list (string * A)) : option A :=
  match l with
  | [] => None
  | (k', v) :: l' => if String.eqb k k' then Some v else assoc k l'
  end.

(** ** Errors and the state-and-error monad *)

Inductive Error : Type := TypeError.

Inductive Result (A : Type) : Type :=
| Ok (a : A)
| Throw (e : Error).

Arguments Ok {A} a.
Arguments Throw {A} e.

Definition M (S A : Type) : Type := S -> Result A * S.

Definition ret {S A : Type} (a : A) : M S A := fun s => (Ok a, s).

Definition throw {S A : Type} (e : Error) : M S A := fun s => (Throw e, s).

Definition bind {S A B : Type} (m : M S A) (k : A -> M S B) : M S B :=
  fun s =>
    match m s with
    | (Ok a, s') => k a s'
    | (Throw e, s') => (Throw e, s')
    end.

Declare Scope js_scope.
Delimit Scope js_scope with js.
Notation "x <- m ;; k" := (bind m (fun x => k))
  (at level 100, m at next level, right associativity) : js_scope.
Notation "m ;;; k" := (bind m (fun _ => k))
  (at level 100, right associativity) : js_scope.
Local Open Scope js_scope.

(** A call of a host service: it cannot throw, and it may change the
    host's state. *)
Definition call {S A : Type} (f : S -> A * S) : M S A :=
  fun s => let (a, s') := f s in (Ok a, s').

(** [o.name] where [o] may be [undefined]. *)
Definition deref {S A : Type} (o : option A) : M S A :=
  match o with
  | Some a => ret a
  | None => throw TypeError
  end.

(** [v.name] on a dynamic value.  The program reads only the names [solid]
    and [color] this way; neither is a property of a string, number or
    boolean wrapper, so a primitive yields [undefined]. *)
Definition getProp (v : Value) (name : string) : Result Value :=
  match v with
  | VUndefined | VNull => Throw TypeError
  | VObj props =>
      match assoc name props with
      | Some x => Ok x
      | None => Ok VUndefined
      end
  | VBool _ | VNum _ | VStr _ => Ok VUndefined
  end.

(** A step that touches no state. *)
Definition pure {S A : Type} (r : Result A) : M S A := fun s => (r, s).

(** JavaScript truthiness. *)
Definition truthy (v : Value) : bool :=
  match v with
  | VUndefined | VNull => false
  | VBool b => b
  | VNum q => negb (Qeq_bool q 0)
  | VStr s => negb (String.eqb s "")
  | VObj _ => true
  end.

Section Conversions.
Context {rt : JSRuntime}.

(** [v + ''] *)
Definition toString (v : Value) : string :=
  match v with
  | VUndefined => "undefined"
  | VNull => "null"
  | VBool true => "true"
  | VBool false => "false"
  | VNum q => numberToString q
  | VStr s => s
  | VObj _ => "[object Object]"
  end.

(** The numeric coercion applied by [*], [/] and [-]. *)
Definition toNumber (v : Value) : number :=
  match v with
  | VUndefined => None
  | VNull => Some 0%Q
  | VBool true => Some 1%Q
  | VBool false => Some 0%Q
  | VNum q => Some q
  | VStr s => stringToNumber s
  | VObj _ => None
  end.
End Conversions.

(** [a[i]]: [undefined] out of range. *)
Definition index (a : list Value) (i : nat) : Value :=
  match nth_error a i with
  | Some v => v
  | None => VUndefined
  end.

(** ** The host's data view *)

Record DataViewMetadataColumn : Type := { queryName : string }.

Record DataViewCategoryColumn : Type := {
  source : option DataViewMetadataColumn;
  cat_values : list Value
}.

(** [maxLocal] is optional in the host interface: absent is [VUndefined]. *)
Record DataViewValueColumn : Type := {
  ser_values : list Value;
  maxLocal : Value
}.

Definition DataViewObject : Type := list (string * Value).
Definition DataViewObjects : Type := list (string * DataViewObject).

Record DataViewMetadata : Type := { objects : option DataViewObjects }.

Record DataViewCategorical : Type := {
  categories : option (list DataViewCategoryColumn);
  values : option (list DataViewValueColumn)
}.

Record DataView : Type := {
  metadata : DataViewMetadata;
  categorical : option DataViewCategorical
}.

Record IViewport : Type := { width : Q; height : Q }.

Record VisualUpdateOptions : Type := {
  dataViews : option (list DataView);
  viewport : IViewport
}.

(** ** The host services *)

Class IVisualHost : Type := {
  HostState : Type;
  ISelectionId : Type;
  (** [host.colorPalette.getColor(key).value] *)
  getColor : string -> HostState -> string * HostState;
  (** [host.createSelectionIdBuilder().withCategory(c, i).createSelectionId()] *)
  createSelectionId :
    DataViewCategoryColumn -> nat -> HostState -> ISelectionId * HostState;
  (** [host.allowInteractions] *)
  allowInteractions : HostState -> bool;
  (** [ISelectionId.equals] *)
  equals : ISelectionId -> ISelectionId -> bool
}.

(** The property the host has persisted under [objectName] and
    [propertyName], if any: [objects[objectName][propertyName]]. *)
Definition persisted (objects : option DataViewObjects)
    (objectName propertyName : string) : option Value :=
  match objects with
  | None => None
  | Some objs =>
      match assoc objectName objs with
      | None => None
      | Some object => assoc propertyName object
      end
  end.

(** Modelled from the spec: [getValue], which [barChart.ts] calls and
    another file of the repository (the object enumeration utility)
    defines.  The spec: settings are resolved "by reading four named
    properties from host metadata, each defaulting to a hard-coded
    constant if unset", the metadata being "keyed by (objectName,
    propertyName)". *)
Definition getValue (objects : option DataViewObjects)
    (objectName propertyName : string) (defaultValue : Value) : Value :=
  match persisted objects objectName propertyName with
  | Some v => v
  | None => defaultValue
  end.

(** ** The view model *)

Record EnableAxis : Type := { show : Value }.
Record ColorSelector : Type := { color1 : Value; color2 : Value }.
Record GeneralView : Type := { opacity : Value; y2trim : Value }.

(** The three members are optional at run time: the guard path of
    [visualTransform] returns the object literal [{}] cast to this type. *)
Record BarChartSettings : Type := {
  enableAxis : option EnableAxis;
  colorSelector : option ColorSelector;
  generalView : option GeneralView
}.

Section Transform.
Context {rt : JSRuntime} {host : IVisualHost}.

Record BarChartDataPoint : Type := {
  value : Value;
  category : string;
  vaxis : Z;
  color : Value;
  selectionId : ISelectionId
}.

Record BarChartViewModel : Type := {
  dataPoints : list BarChartDataPoint;
  dataMax : Value;
  dataMax2 : Value;
  settings : BarChartSettings
}.

(** [<BarChartSettings>{}] *)
Definition noSettings : BarChartSettings :=
  {| enableAxis := None; colorSelector := None; generalView := None |}.

Definition emptyViewModel : BarChartViewModel :=
  {| dataPoints := []; dataMax := VNum 0; dataMax2 := VNum 0;
     settings := noSettings |}.

(** Lines 65-77: the defaults; the two palette look-ups are host calls. *)
Definition defaultSettings : M HostState BarChartSettings :=
  c1 <- call (getColor "1") ;;
  c2 <- call (getColor "2") ;;
  ret {| enableAxis := Some {| show := VBool true |};
         colorSelector := Some {| color1 := VStr c1; color2 := VStr c2 |};
         generalView := Some {| opacity := VNum 100; y2trim := VNum 120 |} |}.

(** Lines 104-116.  The members are evaluated in source order; the
    defaults were built by [defaultSettings], so their members exist. *)
Definition resolveSettings (defaults : BarChartSettings)
    (objects : option DataViewObjects) : M HostState BarChartSettings :=
  dEnableAxis <- deref (enableAxis defaults) ;;
  let show' := getValue objects "enableAxis" "show" (show dEnableAxis) in
  dColorSelector <- deref (colorSelector defaults) ;;
  solid1 <- pure (getProp (getValue objects "colorSelector" "fill"
                         (color1 dColorSelector)) "solid") ;;
  color1' <- pure (getProp solid1 "color") ;;
  solid2 <- pure (getProp (getValue objects "colorSelector" "fill2"
                         (color2 dColorSelector)) "solid") ;;
  color2' <- pure (getProp solid2 "color") ;;
  dGeneralView <- deref (generalView defaults) ;;
  let opacity' :=
    getValue objects "generalView" "opacity" (opacity dGeneralView) in
  let y2trim' :=
    getValue objects "generalView" "y2trim" (y2trim dGeneralView) in
  ret {| enableAxis := Some {| show := show' |};
         colorSelector :=
           Some {| color1 := color1'; color2 := color2' |};
         generalView :=
           Some {| opacity := opacity'; y2trim := y2trim' |} |}.

(** Lines 118-141: one turn of the loop, pushing two points. *)
Definition pushPoints (category : DataViewCategoryColumn)
    (dataValue : DataViewValueColumn)
    (dataValue2 : option DataViewValueColumn)
    (barChartSettings : ColorSelector) (i : nat)
    (barChartDataPoints : list BarChartDataPoint)
  : M HostState (list BarChartDataPoint) :=
  _defaultColor <- call (getColor (toString (index (cat_values category) i))) ;;
  id1 <- call (createSelectionId category i) ;;
  let first :=
    {| category := toString (index (cat_values category) i);
       value := index (ser_values dataValue) i;
       vaxis := 1;
       color := color1 barChartSettings;
       selectionId := id1 |} in
  dv2 <- deref dataValue2 ;;
  id2 <- call (createSelectionId category i) ;;
  let second :=
    {| category := toString (index (cat_values category) i);
       value := index (ser_values dv2) i;
       vaxis := 2;
       color := color2 barChartSettings;
       selectionId := id2 |} in
  ret ((barChartDataPoints ++ [first]) ++ [second]).

(** [for (let i = ...; i < len; i++)], with [count] turns left. *)
Fixpoint forLoop (count : nat) (i : nat)
    (body : nat -> list BarChartDataPoint -> M HostState (list BarChartDataPoint))
    (acc : list BarChartDataPoint) : M HostState (list BarChartDataPoint) :=
  match count with
  | O => ret acc
  | S count' => acc' <- body i acc ;; forLoop count' (S i) body acc'
  end.

(** Lines 93-151: what follows the guard. *)
Definition transformBody (defaults : BarChartSettings) (dataView : DataView)
    (category : DataViewCategoryColumn)
    (vals : list DataViewValueColumn) : M HostState BarChartViewModel :=
  let dataValue := nth_error vals 0 in
  let dataValue2 := nth_error vals 1 in
  barChartSettings <- resolveSettings defaults (objects (metadata dataView)) ;;
  dv <- deref dataValue ;;
  let len := Nat.max (List.length (cat_values category)) (List.length (ser_values dv)) in
  (* [barChartSettings.colorSelector] is the literal built in
     [resolveSettings]: this step never throws. *)
  colors <- deref (colorSelector barChartSettings) ;;
  barChartDataPoints <-
    forLoop len 0 (pushPoints category dv dataValue2 colors) [] ;;
  let dataMax' := maxLocal dv in
  dv2 <- deref dataValue2 ;;
  let dataMax2' := maxLocal dv2 in
  ret {| dataPoints := barChartDataPoints;
         dataMax := dataMax';
         dataMax2 := dataMax2';
         settings := barChartSettings |}.

(** Lines 63-152.  The guard's disjuncts are evaluated left to right;
    [categories[0].source] dereferences [categories[0]]. *)
Definition visualTransform (options : VisualUpdateOptions)
  : M HostState BarChartViewModel :=
  defaults <- defaultSettings ;;
  let viewModel := emptyViewModel in
  match dataViews options with
  | None => ret viewModel
  | Some dvs =>
  match nth_error dvs 0 with
  | None => ret viewModel
  | Some dataView =>
  match categorical dataView with
  | None => ret viewModel
  | Some cat =>
  match categories cat with
  | None => ret viewModel
  | Some cats =>
    category <- deref (nth_error cats 0) ;;
    match source category with
    | None => ret viewModel
    | Some _ =>
    match values cat with
    | None => ret viewModel
    | Some vals => transformBody defaults dataView category vals
    end
    end
  end
  end
  end
  end.
End Transform.

(** ** The renderer *)

(** [BarChart.Config] *)
Module Config.
Definition xScalePadding : Q := 1 # 10.
Definition solidOpacity : number := Some 1%Q.
Definition transparentOpacity : number := Some (1 # 2).
Definition margins_top : Q := 0.
Definition margins_right : Q := 0.
Definition margins_bottom : Q := 25.
Definition margins_left : Q := 30.
Definition xAxisFontMultiplier : Q := 2 # 100.
End Config.

(** What the program hands to the drawing library when it builds a scale. *)
Record LinearScale : Type := {
  domain : number * number;
  range : number * number
}.

Record OrdinalScale : Type := {
  ordinalDomain : list string;
  rangeRoundBands : Q * Q;
  padding : Q;
  outerPadding : Q
}.

(** The drawing library: applying a scale, and the band width of an
    ordinal scale.  A linear scale coerces its argument and yields NaN for
    what is no number; a band scale over a finite interval yields finite
    positions and a finite band width. *)
Class D3 : Type := {
  linear : LinearScale -> Value -> number;
  ordinal : OrdinalScale -> string -> Q;
  rangeBand : OrdinalScale -> Q
}.

(** An entry of the formatting pane. *)
Record VisualObjectInstance : Type := {
  objectName : string;
  displayName : option string;
  properties : list (string * Value);
  validValues : list (string * (Q * Q));
  selector : Value
}.

Section Renderer.
Context {rt : JSRuntime} {host : IVisualHost} {d3 : D3}.

(** A [rect] of class [bar] with the datum bound to it. *)
Record Bar : Type := {
  datum : BarChartDataPoint;
  attr_width : number;
  attr_height : number;
  attr_y : number;
  attr_x : number;
  fill : Value;
  fill_opacity : number
}.

(** The visual: the fields of the class, the host it holds, and what it
    has drawn.  [clickAllowed] is the [allowInteractions] captured by the
    click handler that the bars carry. *)
Record BarChart : Type := {
  hostState : HostState;
  barChartSettings : option BarChartSettings;
  barDataPoints : option (list BarChartDataPoint);
  svgSize : option (Q * Q);
  axisFontSize : option Q;
  yAxis : option LinearScale;
  yAxis2 : option LinearScale;
  xAxis : option OrdinalScale;
  bars : list Bar;
  clickAllowed : bool
}.

(** The state the constructor leaves (lines 189-208). *)
Definition constructor (h : HostState) : BarChart :=
  {| hostState := h; barChartSettings := None; barDataPoints := None;
     svgSize := None; axisFontSize := None;
     yAxis := None; yAxis2 := None; xAxis := None;
     bars := []; clickAllowed := false |}.

Definition withHost {A : Type} (m : M HostState A) : M BarChart A :=
  fun st =>
    let (r, h) := m (hostState st) in
    (r, {| hostState := h;
           barChartSettings := barChartSettings st;
           barDataPoints := barDataPoints st;
           svgSize := svgSize st; axisFontSize := axisFontSize st;
           yAxis := yAxis st; yAxis2 := yAxis2 st; xAxis := xAxis st;
           bars := bars st; clickAllowed := clickAllowed st |}).

Definition modify {S : Type} (f : S -> S) : M S unit :=
  fun s => (Ok tt, f s).

Definition gets {S A : Type} (f : S -> A) : M S A :=
  fun s => (Ok (f s), s).

(** Lines 220-229. *)
Definition storeViewModel (viewModel : BarChartViewModel) (size : Q * Q)
    (st : BarChart) : BarChart :=
  {| hostState := hostState st;
     barChartSettings := Some (settings viewModel);
     barDataPoints := Some (dataPoints viewModel);
     svgSize := Some size; axisFontSize := axisFontSize st;
     yAxis := yAxis st; yAxis2 := yAxis2 st; xAxis := xAxis st;
     bars := bars st; clickAllowed := clickAllowed st |}.

(** Lines 236-244. *)
Definition styleAxes (fontSize : Q) (st : BarChart) : BarChart :=
  {| hostState := hostState st;
     barChartSettings := barChartSettings st;
     barDataPoints := barDataPoints st;
     svgSize := svgSize st; axisFontSize := Some fontSize;
     yAxis := yAxis st; yAxis2 := yAxis2 st; xAxis := xAxis st;
     bars := bars st; clickAllowed := clickAllowed st |}.

(** Lines 257-319: the axes are drawn with the new scales; the data join
    leaves one [rect] per data point, in order, all of whose attributes
    are set; the click handler is registered on each. *)
Definition draw (yScale yScale2 : LinearScale) (xScale : OrdinalScale)
    (rects : list Bar) (allow : bool) (st : BarChart) : BarChart :=
  {| hostState := hostState st;
     barChartSettings := barChartSettings st;
     barDataPoints := barDataPoints st;
     svgSize := svgSize st; axisFontSize := axisFontSize st;
     yAxis := Some yScale; yAxis2 := Some yScale2; xAxis := Some xScale;
     bars := rects; clickAllowed := allow |}.

(** Lines 283-290: the attributes of the [rect] bound to [d]. *)
Definition barWidth (xScale : OrdinalScale) (d : BarChartDataPoint) : number :=
  ndiv (Some (rangeBand xScale)) (ofZ (vaxis d)).

(** [(d.vaxis - 1) * yScale2(d.value)] *)
Definition secondTerm (yScale2 : LinearScale) (d : BarChartDataPoint) : number :=
  nmul (nsub (ofZ (vaxis d)) (Some 1%Q)) (linear yScale2 (value d)).

(** [(d.vaxis - 2) * -1 * yScale(d.value)] *)
Definition firstTerm (yScale : LinearScale) (d : BarChartDataPoint) : number :=
  nmul (nmul (nsub (ofZ (vaxis d)) (Some 2%Q)) (Some (-1)%Q))
       (linear yScale (value d)).

Definition barHeight (height : Q) (yScale yScale2 : LinearScale)
    (d : BarChartDataPoint) : number :=
  nsub (nsub (Some height) (secondTerm yScale2 d)) (firstTerm yScale d).

Definition barY (yScale yScale2 : LinearScale) (d : BarChartDataPoint) : number :=
  nadd (secondTerm yScale2 d) (firstTerm yScale d).

Definition barX (xScale : OrdinalScale) (d : BarChartDataPoint) : number :=
  nadd (Some (ordinal xScale (category d)))
       (nmul (ndiv (Some (rangeBand xScale)) (Some 4%Q))
             (nsub (ofZ (vaxis d)) (Some 1%Q))).

Definition rect (height : Q) (yScale yScale2 : LinearScale)
    (xScale : OrdinalScale) (fillOpacity : number)
    (d : BarChartDataPoint) : Bar :=
  {| datum := d;
     attr_width := barWidth xScale d;
     attr_height := barHeight height yScale yScale2 d;
     attr_y := barY yScale yScale2 d;
     attr_x := barX xScale d;
     fill := color d;
     fill_opacity := fillOpacity |}.

(** Lines 218-320. *)
Definition update (options : VisualUpdateOptions) : M BarChart unit :=
  viewModel <- withHost (visualTransform options) ;;
  let settings := settings viewModel in
  let width := width (viewport options) in
  let height := height (viewport options) in
  modify (storeViewModel viewModel (width, height)) ;;;
  axis <- deref (enableAxis settings) ;;
  let height :=
    if truthy (show axis) then (height - Config.margins_bottom)%Q
    else height in
  modify (styleAxes (Qmin height width * Config.xAxisFontMultiplier)%Q) ;;;
  general <- deref (generalView settings) ;;
  let yScale :=
    {| domain :=
         (Some 0%Q,
          nmul (toNumber (dataMax viewModel))
               (nsub (Some 2%Q)
                     (ndiv (toNumber (y2trim general)) (Some 100%Q))));
       range := (Some height, Some 0%Q) |} in
  let yScale2 :=
    {| domain :=
         (Some 0%Q,
          nmul (toNumber (dataMax2 viewModel))
               (ndiv (toNumber (y2trim general)) (Some 100%Q)));
       range := (Some height, Some 0%Q) |} in
  let xScale :=
    {| ordinalDomain := map category (dataPoints viewModel);
       rangeRoundBands := (0%Q, width);
       padding := Config.xScalePadding;
       outerPadding := (2 # 10)%Q |} in
  let fillOpacity := ndiv (toNumber (opacity general)) (Some 100%Q) in
  allow <- gets (fun st => allowInteractions (hostState st)) ;;
  modify (draw yScale yScale2 xScale
            (map (rect height yScale yScale2 xScale fillOpacity)
                 (dataPoints viewModel))
            allow).

Definition setOpacity (o : number) (b : Bar) : Bar :=
  {| datum := datum b;
     attr_width := attr_width b; attr_height := attr_height b;
     attr_y := attr_y b; attr_x := attr_x b;
     fill := fill b; fill_opacity := o |}.

(** [d3.select(this).attr(...)]: the attributes of the one element
    [this], the [k]-th [rect]. *)
Fixpoint selectThis (k : nat) (f : Bar -> Bar) (l : list Bar) : list Bar :=
  match l, k with
  | [], _ => []
  | b :: l', O => f b :: l'
  | b :: l', S k' => b :: selectThis k' f l'
  end.

(** Lines 304-312: the callback run when the promise of
    [selectionManager.select] resolves with [ids], for a click on the
    [k]-th [rect]. *)
Definition selected (k : nat) (ids : list ISelectionId) (l : list Bar)
  : list Bar :=
  let l' :=
    map (setOpacity (if (0 <? List.length ids)%nat
                     then Config.transparentOpacity
                     else Config.solidOpacity)) l in
  selectThis k (setOpacity Config.solidOpacity) l'.

(** Lines 301-316: a click on the [k]-th [rect] whose selection promise
    resolves with [ids].  The handler does nothing unless the host
    allowed interactions when the handler was registered. *)
Definition click (k : nat) (ids : list ISelectionId) (st : BarChart)
  : BarChart :=
  if clickAllowed st then
    {| hostState := hostState st;
       barChartSettings := barChartSettings st;
       barDataPoints := barDataPoints st;
       svgSize := svgSize st; axisFontSize := axisFontSize st;
       yAxis := yAxis st; yAxis2 := yAxis2 st; xAxis := xAxis st;
       bars := selected k ids (bars st); clickAllowed := clickAllowed st |}
  else st.

Definition fillOf (c : Value) : Value :=
  VObj [("solid", VObj [("color", c)])].

(** Lines 328-403. *)
Definition enumerateObjectInstances (name : string)
  : M BarChart (list VisualObjectInstance) :=
  if String.eqb name "enableAxis" then
    s <- gets barChartSettings ;;
    s <- deref s ;;
    axis <- deref (enableAxis s) ;;
    ret [ {| objectName := name; displayName := None;
             properties := [("show", show axis)];
             validValues := [];
             selector := VNull |} ]
  else if String.eqb name "colorSelector" then
    s <- gets barChartSettings ;;
    s <- deref s ;;
    colors <- deref (colorSelector s) ;;
    ret [ {| objectName := name; displayName := Some "Colors";
             properties := [("fill", fillOf (color1 colors));
                            ("fill2", fillOf (color2 colors))];
             validValues := [];
             selector := VNull |} ]
  else if String.eqb name "generalView" then
    s <- gets barChartSettings ;;
    s <- deref s ;;
    general <- deref (generalView s) ;;
    ret [ {| objectName := name; displayName := None;
             properties := [("opacity", opacity general);
                            ("y2trim", y2trim general)];
             validValues := [("opacity", (10, 100)%Q);
                             ("y2trim", (50, 150)%Q)];
             selector := VNull |} ]
  else ret [].
End Renderer.

(** ** The tooltip *)

(** [getLocalizedString], which [barChart.ts] calls and another file of
    the repository defines: taken as given.  It may return or throw. *)
Class Localization : Type := {
  getLocalizedString : string -> string -> Result Value
}.

Record VisualTooltipDataItem : Type := {
  tip_displayName : string;
  tip_value : string;
  tip_color : Value;
  tip_header : string
}.

Section Tooltip.
Context {rt : JSRuntime} {host : IVisualHost} {loc : Localization}.

(** [v.toString()]: a method call, so it throws on [undefined] and
    [null]; on the other values it gives what [v + ''] gives. *)
Definition callToString (v : Value) : Result string :=
  match v with
  | VUndefined | VNull => Throw TypeError
  | _ => Ok (toString v)
  end.

(** Lines 415-423; [locale] is [this.locale], [data] the datum of the
    bar under the pointer ([tooltipEvent.data], lines 292-294). *)
Definition getTooltipData (locale : string) (data : BarChartDataPoint)
  : Result (list VisualTooltipDataItem) :=
  match getLocalizedString locale "LanguageKey" with
  | Throw e => Throw e
  | Ok language =>
      match callToString (value data) with
      | Throw e => Throw e
      | Ok text =>
          Ok [ {| tip_displayName := category data;
                  tip_value := text;
                  tip_color := color data;
                  tip_header := "" |} ]
      end
  end.
End Tooltip.

(** ** A reference environment

    One instance of each interface, used to run the program on concrete
    inputs: a host that numbers its service calls, decimal integers for
    the number/string conversions, and d3's linear and banded scales. *)

Module Sample.

Definition printZ (z : Z) : string := NilZero.string_of_int (Z.to_int z).

(** A run time for the examples.  It prints an integer in decimal and any
    other rational as numerator/denominator, and reads decimal integers
    only: it agrees with JavaScript's conversions on the integers the
    examples use, and is not meant beyond them. *)
#[export] Instance runtime : JSRuntime := {|
  numberToString q :=
    if Pos.eqb (Qden q) 1 then printZ (Qnum q)
    else (printZ (Qnum q) ++ "/" ++ printZ (Zpos (Qden q)))%string;
  stringToNumber s :=
    match NilZero.int_of_string s with
    | Some i => Some (inject_Z (Z.of_int i))
    | None => None
    end
|}.

(** An identifier names a column and a row; [sid_serial] tells apart
    the objects the builder allocates. *)
Record SelectionId : Type := {
  sid_column : string;
  sid_index : nat;
  sid_serial : nat
}.

Definition columnName (c : DataViewCategoryColumn) : string :=
  match source c with
  | Some m => queryName m
  | None => ""
  end.

#[export] Instance host : IVisualHost := {|
  HostState := nat;
  ISelectionId := SelectionId;
  getColor key n := (("#" ++ key)%string, S n);
  createSelectionId c i n :=
    ({| sid_column := columnName c; sid_index := i; sid_serial := n |}, S n);
  allowInteractions _ := true;
  equals a b :=
    String.eqb (sid_column a) (sid_column b)
    && Nat.eqb (sid_index a) (sid_index b)
|}.

Definition position (x : string) (l : list string) : nat :=
  (fix go (l : list string) (n : nat) : nat :=
     match l with
     | [] => n
     | y :: l' => if String.eqb x y then n else go l' (S n)
     end) l O.

Definition round (q : Q) : Z := Qfloor (q + (1 # 2)).

(** The distinct elements of a list, in first-seen order. *)
Fixpoint distinct (seen l : list string) : list string :=
  match l with
  | [] => []
  | x :: l' =>
      if existsb (String.eqb x) seen then distinct seen l'
      else x :: distinct (x :: seen) l'
  end.

Definition bandStep (s : OrdinalScale) : Z :=
  let n := inject_Z (Z.of_nat (List.length (distinct [] (ordinalDomain s)))) in
  let (start, stop) := rangeRoundBands s in
  Qfloor ((stop - start) / (n - padding s + 2 * outerPadding s)).

Definition bandStart (s : OrdinalScale) : Z :=
  let n := inject_Z (Z.of_nat (List.length (distinct [] (ordinalDomain s)))) in
  let (start, stop) := rangeRoundBands s in
  round (start + (stop - start - (n - padding s) * inject_Z (bandStep s)) / 2).

#[export] Instance d3 : D3 := {|
  linear s v :=
    let (d0, d1) := domain s in
    let (r0, r1) := range s in
    match nsub d1 d0 with
    | Some w =>
        if Qeq_bool w 0 then r0
        else nadd r0 (nmul (ndiv (nsub (toNumber v) d0) (Some w)) (nsub r1 r0))
    | None => None
    end;
  ordinal s x :=
    inject_Z
      (bandStart s
       + bandStep s * Z.of_nat (position x (distinct [] (ordinalDomain s))));
  rangeBand s := inject_Z (round (inject_Z (bandStep s) * (1 - padding s)))
|}.

(** Inputs: a query result with the given categories and value series
    and the given persisted objects. *)
Definition column (vs : list Value) : DataViewCategoryColumn :=
  {| source := Some {| queryName := "Category" |}; cat_values := vs |}.

Definition series (vs : list Value) (m : Value) : DataViewValueColumn :=
  {| ser_values := vs; maxLocal := m |}.

Definition view (objs : option DataViewObjects)
    (cats : list DataViewCategoryColumn) (vals : list DataViewValueColumn)
  : DataView :=
  {| metadata := {| objects := objs |};
     categorical := Some {| categories := Some cats; values := Some vals |} |}.

Definition query (objs : option DataViewObjects)
    (cats : list DataViewCategoryColumn) (vals : list DataViewValueColumn)
  : VisualUpdateOptions :=
  {| dataViews := Some [ view objs cats vals ];
     viewport := {| width := 400; height := 225 |} |}.

(** Both fill colours persisted in the formatting pane. *)
Definition colours : DataViewObjects :=
  [ ("colorSelector",
     [ ("fill", VObj [("solid", VObj [("color", VStr "#111111")])]);
       ("fill2", VObj [("solid", VObj [("color", VStr "#222222")])]) ]) ].

(** The fills, and the opacity set to 50. *)
Definition translucent : DataViewObjects :=
  colours ++ [ ("generalView", [ ("opacity", VNum 50) ]) ].

Definition categoryAB : DataViewCategoryColumn := column [VStr "A"; VStr "B"].
Definition firstSeries : DataViewValueColumn :=
  series [VNum 20; VNum 100] (VNum 100).
Definition secondSeries : DataViewValueColumn :=
  series [VNum 15; VNum 50] (VNum 50).

Definition twoSeries (objs : option DataViewObjects) : VisualUpdateOptions :=
  query objs [categoryAB] [firstSeries; secondSeries].

(** The same categories with the first value series only. *)
Definition oneSeries : VisualUpdateOptions :=
  query (Some colours) [categoryAB] [firstSeries].

(** The two series again, the second without its declared maximum. *)
Definition undeclaredMaximum : VisualUpdateOptions :=
  query (Some colours) [categoryAB]
    [firstSeries; series [VNum 15; VNum 50] VUndefined].

(** No query result at all. *)
Definition noData : VisualUpdateOptions :=
  {| dataViews := None; viewport := {| width := 400; height := 225 |} |}.

(** The visual after its first [update], on [twoSeries] with both fills
    persisted. *)
Definition drawnOnce : BarChart :=
  snd (update (twoSeries (Some colours)) (constructor 0%nat)).

Definition drawnTranslucent : BarChart :=
  snd (update (twoSeries (Some translucent)) (constructor 0%nat)).

Definition drawnUndeclared : BarChart :=
  snd (update undeclaredMaximum (constructor 0%nat)).

(** No localization table has an entry: the look-up returns [undefined]. *)
#[export] Instance localization : Localization := {|
  getLocalizedString _ _ := Ok VUndefined
|}.

(** Columns of different lengths: two categories, three values in the
    first series, one in the second. *)
Definition ragged : VisualUpdateOptions :=
  query (Some colours) [categoryAB]
    [ series [VNum 20; VNum 100; VNum 60] (VNum 100);
      series [VNum 15] (VNum 50) ].

Definition drawnRagged : BarChart :=
  snd (update ragged (constructor 0%nat)).

(** The visual after a second [update] on the same input. *)
Definition drawnTwice : BarChart :=
  snd (update (twoSeries (Some colours)) drawnOnce).

End Sample.

(** ** Vocabulary of the statements about [visualTransform] *)

Section TransformSpec.
Context {rt : JSRuntime} {host : IVisualHost}.

(** The identifier [id] is one the host's builder makes for row [i] of
    the category column [c]. *)
Definition builtFrom (c : DataViewCategoryColumn) (i : nat) (id : ISelectionId)
  : Prop :=
  exists s, id = fst (createSelectionId c i s).

(** The two object literals pushed at index [i]. *)
Definition firstPoint (c : DataViewCategoryColumn) (dv : DataViewValueColumn)
    (colors : ColorSelector) (i : nat) (id : ISelectionId) : BarChartDataPoint :=
  {| category := toString (index (cat_values c) i);
     value := index (ser_values dv) i;
     vaxis := 1;
     color := color1 colors;
     selectionId := id |}.

Definition secondPoint (c : DataViewCategoryColumn) (dv2 : DataViewValueColumn)
    (colors : ColorSelector) (i : nat) (id : ISelectionId) : BarChartDataPoint :=
  {| category := toString (index (cat_values c) i);
     value := index (ser_values dv2) i;
     vaxis := 2;
     color := color2 colors;
     selectionId := id |}.

(** [Emitted c dv dv2 colors i n l]: [l] is what [n] turns of the loop
    starting at index [i] push. *)
Inductive Emitted (c : DataViewCategoryColumn) (dv dv2 : DataViewValueColumn)
    (colors : ColorSelector) : nat -> nat -> list BarChartDataPoint -> Prop :=
| Emitted_done : forall i, Emitted c dv dv2 colors i 0 []
| Emitted_turn : forall i n id1 id2 l,
    builtFrom c i id1 ->
    builtFrom c i id2 ->
    Emitted c dv dv2 colors (S i) n l ->
    Emitted c dv dv2 colors i (S n)
      (firstPoint c dv colors i id1 :: secondPoint c dv2 colors i id2 :: l).

(** The input gets past the guard of lines 85-91, with data view [dv],
    category column [c] and value columns [vals]. *)
Definition passesGuard (options : VisualUpdateOptions) (dv : DataView)
    (c : DataViewCategoryColumn) (vals : list DataViewValueColumn) : Prop :=
  exists dvs cat cats,
    dataViews options = Some (dv :: dvs) /\
    categorical dv = Some cat /\
    categories cat = Some (c :: cats) /\
    source c <> None /\
    values cat = Some vals.

(** The category column the loop runs over: [dataViews[0].categorical.categories[0]]. *)
Definition categoryColumn (options : VisualUpdateOptions)
  : option DataViewCategoryColumn :=
  match dataViews options with
  | Some (dv :: _) =>
      match categorical dv with
      | Some cat =>
          match categories cat with
          | Some (c :: _) => Some c
          | _ => None
          end
      | None => None
      end
  | _ => None
  end.

(** [fill.solid.color] read off a value, outside any state. *)
Definition solidColor (fill : Value) : Result Value :=
  match getProp fill "solid" with
  | Ok solid => getProp solid "color"
  | Throw e => Throw e
  end.

(** The colour palette answers by key alone, and two identifiers built
    for the same row of the same column are equal for the host. *)
Definition deterministicPalette : Prop :=
  forall key s s', fst (getColor key s) = fst (getColor key s').

Definition deterministicBuilder : Prop :=
  forall c i s s',
    equals (fst (createSelectionId c i s)) (fst (createSelectionId c i s')) = true.

Definition samePoint (p q : BarChartDataPoint) : Prop :=
  value p = value q /\ category p = category q /\ vaxis p = vaxis q /\
  color p = color q /\ equals (selectionId p) (selectionId q) = true.

Definition sameViewModel (a b : BarChartViewModel) : Prop :=
  Forall2 samePoint (dataPoints a) (dataPoints b) /\
  dataMax a = dataMax b /\ dataMax2 a = dataMax2 b /\
  settings a = settings b.

(** Two runs agree: both throw the same error, or both return, with
    results related by [R]. *)
Definition agree {A : Type} (R : A -> A -> Prop) (a b : Result A) : Prop :=
  match a, b with
  | Ok x, Ok y => R x y
  | Throw e, Throw e' => e = e'
  | _, _ => False
  end.

(** [m1] and [m2] agree whatever states they start from. *)
Definition agrees {A : Type} (R : A -> A -> Prop) (m1 m2 : M HostState A) : Prop :=
  forall s s', agree R (fst (m1 s)) (fst (m2 s')).

End TransformSpec.

(** ** Vocabulary of the statements about the renderer *)

Section RendererSpec.
Context {rt : JSRuntime} {host : IVisualHost} {d3 : D3}.

(** Two numbers are the same number. *)
Definition numEq (a b : number) : Prop :=
  match a, b with
  | Some x, Some y => (x == y)%Q
  | None, None => True
  | _, _ => False
  end.

(** The height left for the bars: the viewport's, less the bottom margin
    when the axis is shown (lines 224-234). *)
Definition usableHeight (options : VisualUpdateOptions) (axis : EnableAxis) : Q :=
  if truthy (show axis)
  then (height (viewport options) - Config.margins_bottom)%Q
  else height (viewport options).

(** What a drawn bar satisfies, [w] being the band width and [x0] the
    start of the band of its category: the width and the x of its axis,
    and, when the primary and the secondary scale map its value to the
    finite numbers [s1] and [s2], the height and the y of its axis. *)
Definition barSpec (h : Q) (yScale yScale2 : LinearScale) (xScale : OrdinalScale)
    (b : Bar) : Prop :=
  let w := rangeBand xScale in
  let x0 := ordinal xScale (category (datum b)) in
  (vaxis (datum b) = 1%Z ->
     numEq (attr_width b) (Some w) /\ numEq (attr_x b) (Some x0)) /\
  (vaxis (datum b) = 2%Z ->
     numEq (attr_width b) (Some (w / 2)%Q) /\
     numEq (attr_x b) (Some (x0 + w / 4)%Q)) /\
  forall s1 s2,
    linear yScale (value (datum b)) = Some s1 ->
    linear yScale2 (value (datum b)) = Some s2 ->
    (vaxis (datum b) = 1%Z ->
       numEq (attr_height b) (Some (h - s1)%Q) /\
       numEq (attr_y b) (Some s1)) /\
    (vaxis (datum b) = 2%Z ->
       numEq (attr_height b) (Some (h - s2)%Q) /\
       numEq (attr_y b) (Some s2)).

(** The state a completed [update] leaves. *)
Definition drawn (options : VisualUpdateOptions) (viewModel : BarChartViewModel)
    (h : HostState) (axis : EnableAxis) (general : GeneralView) : BarChart :=
  let usable := usableHeight options axis in
  let yScale :=
    {| domain :=
         (Some 0%Q,
          nmul (toNumber (dataMax viewModel))
               (nsub (Some 2%Q)
                     (ndiv (toNumber (y2trim general)) (Some 100%Q))));
       range := (Some usable, Some 0%Q) |} in
  let yScale2 :=
    {| domain :=
         (Some 0%Q,
          nmul (toNumber (dataMax2 viewModel))
               (ndiv (toNumber (y2trim general)) (Some 100%Q)));
       range := (Some usable, Some 0%Q) |} in
  let xScale :=
    {| ordinalDomain := map category (dataPoints viewModel);
       rangeRoundBands := (0%Q, width (viewport options));
       padding := Config.xScalePadding;
       outerPadding := (2 # 10)%Q |} in
  {| hostState := h;
     barChartSettings := Some (settings viewModel);
     barDataPoints := Some (dataPoints viewModel);
     svgSize := Some (width (viewport options), height (viewport options));
     axisFontSize :=
       Some (Qmin usable (width (viewport options))
             * Config.xAxisFontMultiplier)%Q;
     yAxis := Some yScale; yAxis2 := Some yScale2; xAxis := Some xScale;
     bars :=
       map (rect usable yScale yScale2 xScale
              (ndiv (toNumber (opacity general)) (Some 100%Q)))
           (dataPoints viewModel);
     clickAllowed := allowInteractions h |}.

End RendererSpec.

(** ** Further vocabulary *)

Section MoreSpec.
Context {rt : JSRuntime} {host : IVisualHost} {d3 : D3}.

(** Both fills are persisted and [.solid.color] can be read off each,
    giving [k1] and [k2]. *)
Definition fillsResolve (objs : option DataViewObjects) (k1 k2 : Value) : Prop :=
  exists f1 f2,
    persisted objs "colorSelector" "fill" = Some f1 /\ solidColor f1 = Ok k1 /\
    persisted objs "colorSelector" "fill2" = Some f2 /\ solidColor f2 = Ok k2.

(** The settings resolved from [objs] when the fills give [k1] and [k2]. *)
Definition resolved (objs : option DataViewObjects) (k1 k2 : Value)
  : BarChartSettings :=
  {| enableAxis :=
       Some {| show := getValue objs "enableAxis" "show" (VBool true) |};
     colorSelector := Some {| color1 := k1; color2 := k2 |};
     generalView :=
       Some {| opacity := getValue objs "generalView" "opacity" (VNum 100);
               y2trim := getValue objs "generalView" "y2trim" (VNum 120) |} |}.

(** The input is one [update] draws: it passes the guard, has both value
    series, and both fills resolve. *)
Definition drawable (options : VisualUpdateOptions) : Prop :=
  exists dv c vals v1 v2 k1 k2,
    passesGuard options dv c vals /\
    nth_error vals 0 = Some v1 /\ nth_error vals 1 = Some v2 /\
    fillsResolve (objects (metadata dv)) k1 k2.

(** Everything of a bar but its fill-opacity. *)
Definition shape (b : Bar)
  : BarChartDataPoint * number * number * number * number * Value :=
  (datum b, attr_width b, attr_height b, attr_y b, attr_x b, fill b).

(** The fill-opacity the selection callback gives the [j]-th bar. *)
Definition highlight (k : nat) (ids : list ISelectionId) (j : nat) : number :=
  if Nat.eqb j k then Config.solidOpacity
  else if (0 <? List.length ids)%nat then Config.transparentOpacity
       else Config.solidOpacity.

(** What the host stores when it persists the properties of the entries
    the enumerator reported, under their object names. *)
Definition persist (entries : list VisualObjectInstance) : DataViewObjects :=
  map (fun e => (objectName e, properties e)) entries.

(** Two bars look the same, and their data agree. *)
Definition sameBar (a b : Bar) : Prop :=
  samePoint (datum a) (datum b) /\
  attr_width a = attr_width b /\ attr_height a = attr_height b /\
  attr_y a = attr_y b /\ attr_x a = attr_x b /\
  fill a = fill b /\ fill_opacity a = fill_opacity b.

End MoreSpec.

(** * Properties *)

(** ** The monad *)

Lemma bind_Ok {S A B : Type} (m : M S A) (k : A -> M S B) s a s' :
  m s = (Ok a, s') -> bind m k s = k a s'.
Proof. unfold bind. intros ->. reflexivity. Qed.

Lemma bind_Throw {S A B : Type} (m : M S A) (k : A -> M S B) s e s' :
  m s = (Throw e, s') -> bind m k s = (Throw e, s').
Proof. unfold bind. intros ->. reflexivity. Qed.

Lemma bind_inv {S A B : Type} (m : M S A) (k : A -> M S B) s b s2 :
  bind m k s = (Ok b, s2) ->
  exists a s1, m s = (Ok a, s1) /\ k a s1 = (Ok b, s2).
Proof.
  unfold bind. destruct (m s) as [[a | e] s1]; intros H.
  - exists a, s1. split; [reflexivity | exact H].
  - discriminate H.
Qed.

Lemma call_eq {S A : Type} (f : S -> A * S) s :
  call f s = (Ok (fst (f s)), snd (f s)).
Proof. unfold call. destruct (f s); reflexivity. Qed.

Lemma deref_inv {S A : Type} (o : option A) (s : S) a s' :
  deref o s = (Ok a, s') -> o = Some a /\ s' = s.
Proof.
  destruct o as [x |]; cbn; intros H; inversion H; subst; auto.
Qed.

(** ** Facts about [visualTransform] *)

Section TransformFacts.
Context {rt : JSRuntime} {host : IVisualHost}.

Lemma visualTransform_body options dv c vals s :
  passesGuard options dv c vals ->
  visualTransform options s =
  (defaults <- defaultSettings ;; transformBody defaults dv c vals) s.
Proof.
  intros (dvs & cat & cats & Hd & Hc & Hcs & Hs & Hv).
  unfold visualTransform, bind.
  destruct (defaultSettings s) as [[defaults | e] s1]; [| reflexivity].
  rewrite Hd; cbn. rewrite Hc, Hcs; cbn.
  destruct (source c) as [m |]; [| contradiction Hs; reflexivity].
  rewrite Hv. reflexivity.
Qed.

Lemma defaultSettings_eq s :
  defaultSettings s =
  (Ok {| enableAxis := Some {| show := VBool true |};
         colorSelector :=
           Some {| color1 := VStr (fst (getColor "1" s));
                   color2 := VStr (fst (getColor "2" (snd (getColor "1" s)))) |};
         generalView := Some {| opacity := VNum 100; y2trim := VNum 120 |} |},
   snd (getColor "2" (snd (getColor "1" s)))).
Proof.
  unfold defaultSettings, bind. rewrite call_eq.
  rewrite call_eq. reflexivity.
Qed.

(** Settings resolution makes no host call. *)
Lemma resolveSettings_state defaults objs s :
  snd (resolveSettings defaults objs s) = s.
Proof.
  unfold resolveSettings, bind, pure.
  repeat match goal with
  | |- context [deref ?o _] => destruct o; cbn
  | |- context [getProp ?v ?n] => destruct (getProp v n); cbn
  end; reflexivity.
Qed.

Lemma resolveSettings_fst defaults objs s s' :
  fst (resolveSettings defaults objs s) = fst (resolveSettings defaults objs s').
Proof.
  unfold resolveSettings, bind, pure.
  repeat match goal with
  | |- context [deref ?o _] => destruct o; cbn
  | |- context [getProp ?v ?n] => destruct (getProp v n); cbn
  end; reflexivity.
Qed.

(** One turn of the loop, when the second value column is there. *)
Lemma pushPoints_eq c dv dv2 colors i acc s :
  pushPoints c dv (Some dv2) colors i acc s =
  let s1 := snd (getColor (toString (index (cat_values c) i)) s) in
  let r1 := createSelectionId c i s1 in
  let r2 := createSelectionId c i (snd r1) in
  (Ok (acc ++ [firstPoint c dv colors i (fst r1);
               secondPoint c dv2 colors i (fst r2)]),
   snd r2).
Proof.
  unfold pushPoints, bind. rewrite !call_eq. cbn.
  rewrite call_eq. rewrite <- app_assoc. reflexivity.
Qed.

(** When it is absent the turn throws, after the first host calls. *)
Lemma pushPoints_absent c dv colors i acc s :
  fst (pushPoints c dv None colors i acc s) = Throw TypeError.
Proof.
  unfold pushPoints, bind. rewrite !call_eq. reflexivity.
Qed.

Lemma forLoop_absent c dv colors n i acc s :
  fst (forLoop (S n) i (pushPoints c dv None colors) acc s) = Throw TypeError.
Proof.
  cbn. unfold bind.
  pose proof (pushPoints_absent c dv colors i acc s) as H.
  destruct (pushPoints c dv None colors i acc s) as [[a | e] s1];
    cbn in H |- *; [discriminate H | exact H].
Qed.

(** The loop returns, and what it pushes is [Emitted]. *)
Lemma forLoop_Emitted c dv dv2 colors n : forall i acc s,
  exists l s',
    forLoop n i (pushPoints c dv (Some dv2) colors) acc s = (Ok (acc ++ l), s') /\
    Emitted c dv dv2 colors i n l.
Proof.
  induction n as [| n IH]; intros i acc s.
  - exists [], s. cbn. rewrite app_nil_r. split; [reflexivity | constructor].
  - cbn [forLoop]. unfold bind. rewrite pushPoints_eq. cbn beta iota zeta.
    match goal with
    | |- context [forLoop n (S i) _ ?acc' ?s1] =>
        destruct (IH (S i) acc' s1) as (l & s' & Hrun & Hl)
    end.
    eexists _, s'. split.
    + rewrite Hrun. rewrite <- app_assoc. reflexivity.
    + cbn. constructor; [eexists; reflexivity .. | exact Hl].
Qed.

Lemma Emitted_length c dv dv2 colors i n l :
  Emitted c dv dv2 colors i n l -> List.length l = (2 * n)%nat.
Proof.
  induction 1; cbn [List.length]; lia.
Qed.

Lemma Emitted_nth c dv dv2 colors i n l :
  Emitted c dv dv2 colors i n l ->
  forall j, (j < n)%nat ->
    exists id1 id2,
      builtFrom c (i + j) id1 /\ builtFrom c (i + j) id2 /\
      nth_error l (2 * j) = Some (firstPoint c dv colors (i + j) id1) /\
      nth_error l (2 * j + 1) = Some (secondPoint c dv2 colors (i + j) id2).
Proof.
  induction 1 as [| i n id1 id2 l H1 H2 Hl IH]; intros j Hj; [lia |].
  destruct j as [| j].
  - exists id1, id2. rewrite Nat.add_0_r. repeat split; assumption.
  - destruct (IH j ltac:(lia)) as (a & b & Ha & Hb & Hn1 & Hn2).
    exists a, b.
    replace (i + S j)%nat with (S i + j)%nat by lia.
    replace (2 * S j)%nat with (S (S (2 * j))) by lia.
    replace (S (S (2 * j)) + 1)%nat with (S (S (2 * j + 1))) by lia.
    repeat split; assumption.
Qed.

Lemma Emitted_vaxis c dv dv2 colors i n l :
  Emitted c dv dv2 colors i n l ->
  Forall (fun p => vaxis p = 1%Z \/ vaxis p = 2%Z) l.
Proof.
  induction 1 as [| i n id1 id2 l H1 H2 Hl IH]; [constructor |].
  constructor; [left; reflexivity |].
  constructor; [right; reflexivity | exact IH].
Qed.

(** What [transformBody] returns when it returns. *)
Lemma transformBody_inv defaults dv c vals s vm s' :
  transformBody defaults dv c vals s = (Ok vm, s') ->
  exists st colors v1 v2 l,
    fst (resolveSettings defaults (objects (metadata dv)) s) = Ok st /\
    colorSelector st = Some colors /\
    nth_error vals 0 = Some v1 /\ nth_error vals 1 = Some v2 /\
    Emitted c v1 v2 colors 0
      (Nat.max (List.length (cat_values c)) (List.length (ser_values v1))) l /\
    vm = {| dataPoints := l; dataMax := maxLocal v1; dataMax2 := maxLocal v2;
            settings := st |}.
Proof.
  unfold transformBody. intros H.
  apply bind_inv in H as (st & s1 & Hst & H).
  apply bind_inv in H as (v1 & s2 & Hv1 & H).
  apply deref_inv in Hv1 as [Hv1 ->].
  apply bind_inv in H as (colors & s3 & Hc & H).
  apply deref_inv in Hc as [Hc ->].
  apply bind_inv in H as (l & s4 & Hloop & H).
  apply bind_inv in H as (v2 & s5 & Hv2 & H).
  apply deref_inv in Hv2 as [Hv2 ->].
  inversion H; subst; clear H.
  rewrite Hv2 in Hloop.
  destruct (forLoop_Emitted c v1 v2 colors
              (Nat.max (List.length (cat_values c)) (List.length (ser_values v1)))
              0 [] s1) as (l' & s6 & Hrun & Hl).
  rewrite Hrun in Hloop. cbn in Hloop.
  assert (l' = l) by congruence. subst l'.
  exists st, colors, v1, v2, l. rewrite Hst. cbn. repeat split; assumption.
Qed.

(** When the settings resolve and both value columns are there,
    [transformBody] returns. *)
Lemma transformBody_returns defaults dv c vals s st v1 v2 :
  fst (resolveSettings defaults (objects (metadata dv)) s) = Ok st ->
  nth_error vals 0 = Some v1 -> nth_error vals 1 = Some v2 ->
  exists vm s', transformBody defaults dv c vals s = (Ok vm, s').
Proof.
  intros Hst Hv1 Hv2.
  assert (Hc : exists colors, colorSelector st = Some colors).
  { revert Hst. unfold resolveSettings, bind, pure.
    repeat match goal with
    | |- context [deref ?o _] => destruct o; cbn
    | |- context [getProp ?v ?n] => destruct (getProp v n); cbn
    end; intros H; inversion H; subst; cbn; eauto. }
  destruct Hc as [colors Hc].
  unfold transformBody, bind.
  pose proof (resolveSettings_state defaults (objects (metadata dv)) s) as Hs.
  destruct (resolveSettings defaults (objects (metadata dv)) s) as [r s1].
  cbn in Hst, Hs. subst r s1. rewrite Hv1, Hv2. cbn. rewrite Hc. cbn.
  destruct (forLoop_Emitted c v1 v2 colors
              (Nat.max (List.length (cat_values c)) (List.length (ser_values v1)))
              0 [] s) as (l & s2 & Hrun & _).
  rewrite Hrun. eexists _, _. reflexivity.
Qed.

Lemma Emitted_count c dv dv2 colors i n l :
  Emitted c dv dv2 colors i n l ->
  List.length (filter (fun p => Z.eqb (vaxis p) 1) l) = n /\
  List.length (filter (fun p => Z.eqb (vaxis p) 2) l) = n.
Proof.
  induction 1 as [| i n id1 id2 l H1 H2 Hl [IH1 IH2]]; cbn; [auto |].
  rewrite IH1, IH2. auto.
Qed.

(** Every throw of this program is a [TypeError]. *)
Lemma not_Ok_Throw {A : Type} (r : Result A) :
  (forall a, r <> Ok a) -> r = Throw TypeError.
Proof.
  destruct r as [a | []]; intros H; [destruct (H a eq_refl) | reflexivity].
Qed.

(** X2.  The guard returns the empty view model, without an error, when
    the data views, the first data view, its categorical section or the
    category columns are absent, and, when there is a first category
    column, when its source or the value columns are absent.  It tests
    the category columns, not the first of them: when the array of
    category columns is there and empty, reading [source] off
    [categories[0]] throws a [TypeError], whether the value columns are
    there or not. *)
Theorem visualTransform_guard options s :
  (dataViews options = None \/
   (exists dvs, dataViews options = Some dvs /\
      (nth_error dvs 0 = None \/
       exists dv, nth_error dvs 0 = Some dv /\
         (categorical dv = None \/
          exists cat, categorical dv = Some cat /\
            (categories cat = None \/
             exists c cats, categories cat = Some (c :: cats) /\
               (source c = None \/ values cat = None))))) ->
   fst (visualTransform options s) = Ok emptyViewModel) /\
  (forall dv dvs cat,
      dataViews options = Some (dv :: dvs) ->
      categorical dv = Some cat ->
      categories cat = Some [] ->
      fst (visualTransform options s) = Throw TypeError).
Proof.
  split.
  - intros H. unfold visualTransform, bind. rewrite defaultSettings_eq.
    destruct H as [-> | (dvs & -> & [-> | (dv & -> & [-> | (cat & -> & H)])])];
      try reflexivity.
    destruct H as [-> | (c & cats & -> & H)]; [reflexivity |]. cbn.
    destruct H as [-> | H]; [reflexivity |].
    destruct (source c); [rewrite H |]; reflexivity.
  - intros dv dvs cat Hd Hc Hcs.
    unfold visualTransform, bind. rewrite defaultSettings_eq.
    rewrite Hd. cbn. rewrite Hc, Hcs. reflexivity.
Qed.

(** The guard tests [categories], not [categories[0]]: with an empty array
    of category columns, reading [source] off [categories[0]] throws. *)
Lemma visualTransform_no_category_column options dv dvs cat s :
  dataViews options = Some (dv :: dvs) ->
  categorical dv = Some cat ->
  categories cat = Some [] ->
  fst (visualTransform options s) = Throw TypeError.
Proof.
  intros Hd Hc Hcs. unfold visualTransform, bind. rewrite defaultSettings_eq.
  rewrite Hd. cbn. rewrite Hc, Hcs. reflexivity.
Qed.

(** C1.  The claim: whenever the query result, its categorical section,
    the category series, the category source or either value series is
    absent, [visualTransform] returns the empty view model and never fails.
    The code: an input that passes the guard and lacks the first or the
    second value series ([values[0]] or [values[1]] undefined) makes
    [visualTransform] throw a [TypeError]. *)
Theorem C1_absent_value_series_throws options dv c vals s :
  passesGuard options dv c vals ->
  nth_error vals 0 = None \/ nth_error vals 1 = None ->
  fst (visualTransform options s) = Throw TypeError.
Proof.
  intros Hg Habs. rewrite (visualTransform_body s Hg).
  unfold bind. rewrite defaultSettings_eq.
  apply not_Ok_Throw. intros vm Hvm.
  match type of Hvm with
  | fst (transformBody ?d dv c vals ?s1) = _ =>
      destruct (transformBody d dv c vals s1) as [r s2] eqn:Hrun
  end.
  cbn in Hvm. subst r.
  apply transformBody_inv in Hrun
    as (st & colors & v1 & v2 & l & _ & _ & Hv1 & Hv2 & _).
  destruct Habs; congruence.
Qed.

(** C7.  The claim: with no persisted object properties the resolved
    settings equal the hard-coded defaults, the two colours being the
    palette colours for the keys 1 and 2.  The code: the default handed to
    [getValue] for a fill is the palette colour, a string, and the result
    is read through [.solid.color]; with nothing persisted the string comes
    back, its [solid] is undefined, and reading [color] throws.  So every
    input that passes the guard and has no persisted property makes
    [visualTransform] throw a [TypeError] instead of resolving settings. *)
Theorem C7_unpersisted_fill_throws options dv c vals s :
  passesGuard options dv c vals ->
  (forall objectName propertyName,
      persisted (objects (metadata dv)) objectName propertyName = None) ->
  fst (visualTransform options s) = Throw TypeError.
Proof.
  intros Hg Hnone. rewrite (visualTransform_body s Hg).
  unfold bind. rewrite defaultSettings_eq.
  unfold transformBody, bind, resolveSettings, getValue. cbn.
  rewrite !Hnone. reflexivity.
Qed.

(** *** Two runs from different host states *)

Lemma agrees_ret {A : Type} (R : A -> A -> Prop) a b :
  R a b -> agrees R (ret a) (ret b).
Proof. intros H s s'. exact H. Qed.

Lemma agrees_pure {A : Type} (R : A -> A -> Prop) (r : Result A) :
  (forall a, R a a) -> agrees R (pure r) (pure r).
Proof. intros H s s'. destruct r; cbn; auto. Qed.

Lemma agrees_deref {A : Type} (R : A -> A -> Prop) (o : option A) :
  (forall a, R a a) -> agrees R (deref o) (deref o).
Proof. intros H s s'. destruct o; cbn; auto. Qed.

Lemma agrees_bind {A B : Type} (R : A -> A -> Prop) (R' : B -> B -> Prop)
    m1 m2 k1 k2 :
  agrees R m1 m2 ->
  (forall a b, R a b -> agrees R' (k1 a) (k2 b)) ->
  agrees R' (bind m1 k1) (bind m2 k2).
Proof.
  intros Hm Hk s s'. unfold bind. specialize (Hm s s').
  destruct (m1 s) as [[a | e] s1], (m2 s') as [[b | e'] s1']; cbn in Hm;
    try contradiction.
  - apply Hk. exact Hm.
  - exact Hm.
Qed.

Lemma agrees_getColor key :
  deterministicPalette -> agrees eq (call (getColor key)) (call (getColor key)).
Proof. intros H s s'. rewrite !call_eq. cbn. apply H. Qed.

Lemma agrees_createSelectionId c i :
  deterministicBuilder ->
  agrees (fun a b => equals a b = true)
    (call (createSelectionId c i)) (call (createSelectionId c i)).
Proof. intros H s s'. rewrite !call_eq. cbn. apply H. Qed.

Lemma agrees_defaultSettings :
  deterministicPalette -> agrees eq defaultSettings defaultSettings.
Proof.
  intros H. unfold defaultSettings.
  eapply agrees_bind; [apply agrees_getColor, H |]. intros c1 ? <-.
  eapply agrees_bind; [apply agrees_getColor, H |]. intros c2 ? <-.
  apply agrees_ret. reflexivity.
Qed.

Lemma agrees_resolveSettings defaults objs :
  agrees eq (resolveSettings defaults objs) (resolveSettings defaults objs).
Proof.
  intros s s'. rewrite (resolveSettings_fst defaults objs s s').
  destruct (fst (resolveSettings defaults objs s')); reflexivity.
Qed.

Lemma agrees_pushPoints c dv dv2 colors i acc acc' :
  deterministicPalette -> deterministicBuilder ->
  Forall2 samePoint acc acc' ->
  agrees (Forall2 samePoint)
    (pushPoints c dv dv2 colors i acc) (pushPoints c dv dv2 colors i acc').
Proof.
  intros Hp Hb Hacc. unfold pushPoints.
  eapply agrees_bind; [apply agrees_getColor, Hp |]. intros _ _ _.
  eapply agrees_bind; [apply agrees_createSelectionId, Hb |]. intros id1 id1' H1.
  eapply agrees_bind; [apply agrees_deref with (R := eq); reflexivity |].
  intros v2 ? <-.
  eapply agrees_bind; [apply agrees_createSelectionId, Hb |]. intros id2 id2' H2.
  apply agrees_ret.
  repeat apply Forall2_app; try assumption;
    repeat constructor; cbn; auto.
Qed.

Lemma agrees_forLoop c dv dv2 colors n : forall i acc acc',
  deterministicPalette -> deterministicBuilder ->
  Forall2 samePoint acc acc' ->
  agrees (Forall2 samePoint)
    (forLoop n i (pushPoints c dv dv2 colors) acc)
    (forLoop n i (pushPoints c dv dv2 colors) acc').
Proof.
  induction n as [| n IH]; intros i acc acc' Hp Hb Hacc; cbn [forLoop].
  - apply agrees_ret. exact Hacc.
  - eapply agrees_bind; [apply agrees_pushPoints; assumption |].
    intros a b Hab. apply IH; assumption.
Qed.

Lemma agrees_transformBody defaults dv c vals :
  deterministicPalette -> deterministicBuilder ->
  agrees sameViewModel
    (transformBody defaults dv c vals) (transformBody defaults dv c vals).
Proof.
  intros Hp Hb. unfold transformBody.
  eapply agrees_bind; [apply agrees_resolveSettings |]. intros st ? <-.
  eapply agrees_bind; [apply agrees_deref with (R := eq); reflexivity |].
  intros v1 ? <-.
  eapply agrees_bind; [apply agrees_deref with (R := eq); reflexivity |].
  intros colors ? <-.
  eapply agrees_bind; [apply agrees_forLoop; auto |]. intros l l' Hl.
  eapply agrees_bind; [apply agrees_deref with (R := eq); reflexivity |].
  intros v2 ? <-.
  apply agrees_ret. repeat split; auto.
Qed.

Lemma sameViewModel_empty : sameViewModel emptyViewModel emptyViewModel.
Proof. repeat split; constructor. Qed.

Lemma agrees_visualTransform options :
  deterministicPalette -> deterministicBuilder ->
  agrees sameViewModel (visualTransform options) (visualTransform options).
Proof.
  intros Hp Hb. unfold visualTransform.
  eapply agrees_bind; [apply agrees_defaultSettings, Hp |].
  intros defaults ? <-.
  pose proof (agrees_ret sameViewModel _ _ sameViewModel_empty) as Hret.
  destruct (dataViews options) as [dvs |]; [| exact Hret].
  destruct (nth_error dvs 0) as [dv |]; [| exact Hret].
  destruct (categorical dv) as [cat |]; [| exact Hret].
  destruct (categories cat) as [cats |]; [| exact Hret].
  eapply agrees_bind; [apply agrees_deref with (R := eq); reflexivity |].
  intros c ? <-.
  destruct (source c); [| exact Hret].
  destruct (values cat) as [vals |]; [| exact Hret].
  apply agrees_transformBody; assumption.
Qed.

(** C8.  With a colour palette that answers by key alone and an
    identifier builder whose identifiers for one (category, index) pair are
    equal for the host, calling [visualTransform] twice on the same input
    (the second call starting from the host state the first one left)
    gives the same outcome: both calls throw the same error, or both
    return view models whose data points agree position by position in
    value, category, axis index and colour, with selection identifiers
    that the host's [equals] accepts, and with the same maxima and
    settings. *)
Theorem C8_visualTransform_deterministic options s :
  deterministicPalette -> deterministicBuilder ->
  let first := visualTransform options s in
  let second := visualTransform options (snd first) in
  agree sameViewModel (fst first) (fst second).
Proof.
  intros Hp Hb first second.
  exact (agrees_visualTransform options Hp Hb s (snd first)).
Qed.

Lemma visualTransform_inv options s vm s' :
  visualTransform options s = (Ok vm, s') ->
  vm = emptyViewModel \/
  exists dv c vals defaults s1,
    passesGuard options dv c vals /\
    defaultSettings s = (Ok defaults, s1) /\
    transformBody defaults dv c vals s1 = (Ok vm, s').
Proof.
  unfold visualTransform. intros H.
  apply bind_inv in H as (defaults & s1 & Hd & H).
  assert (Hret : forall t, ret emptyViewModel t = (Ok vm, s') -> vm = emptyViewModel)
    by (intros t Ht; inversion Ht; reflexivity).
  destruct (dataViews options) as [[| dv dvs] |] eqn:Hdv; cbn in H; eauto.
  destruct (categorical dv) as [cat |] eqn:Hcat; eauto.
  destruct (categories cat) as [[| c cats] |] eqn:Hcats; cbn in H; eauto;
    [discriminate H |].
  destruct (source c) eqn:Hsrc; eauto.
  destruct (values cat) as [vals |] eqn:Hvals; eauto.
  right. exists dv, c, vals, defaults, s1. split; [| auto].
  exists dvs, cat, cats. rewrite Hsrc. repeat split; auto. discriminate.
Qed.

Lemma passesGuard_categoryColumn options dv c vals :
  passesGuard options dv c vals -> categoryColumn options = Some c.
Proof.
  intros (dvs & cat & cats & Hd & Hc & Hcs & _ & _).
  unfold categoryColumn. rewrite Hd, Hc, Hcs. reflexivity.
Qed.

(** C9.  At every index the loop processed, the point of the first axis and
    the point of the second axis carry identifiers that the host's builder
    made for the same (category column, index) pair; with a builder whose
    identifiers for one pair are equal for the host, the two points of one
    category have equal selection identifiers. *)
Theorem C9_pair_shares_selection_identity options s vm s' i :
  deterministicBuilder ->
  visualTransform options s = (Ok vm, s') ->
  (2 * i < List.length (dataPoints vm))%nat ->
  exists c p1 p2,
    categoryColumn options = Some c /\
    nth_error (dataPoints vm) (2 * i) = Some p1 /\
    nth_error (dataPoints vm) (2 * i + 1) = Some p2 /\
    vaxis p1 = 1%Z /\ vaxis p2 = 2%Z /\
    builtFrom c i (selectionId p1) /\
    builtFrom c i (selectionId p2) /\
    equals (selectionId p1) (selectionId p2) = true.
Proof.
  intros Hb Hrun Hi.
  destruct (visualTransform_inv _ _ Hrun)
    as [-> | (dv & c & vals & defaults & s1 & Hg & _ & Hbody)];
    [cbn in Hi; lia |].
  apply transformBody_inv in Hbody
    as (st & colors & v1 & v2 & l & _ & _ & _ & _ & Hl & ->).
  cbn [dataPoints] in *.
  rewrite (Emitted_length Hl) in Hi.
  destruct (Emitted_nth Hl (j := i) ltac:(lia))
    as (id1 & id2 & H1 & H2 & Hn1 & Hn2).
  cbn [Nat.add] in H1, H2, Hn1, Hn2.
  exists c, (firstPoint c v1 colors i id1), (secondPoint c v2 colors i id2).
  split; [exact (passesGuard_categoryColumn Hg) |].
  split; [exact Hn1 |]. split; [exact Hn2 |].
  split; [reflexivity |]. split; [reflexivity |].
  split; [exact H1 |]. split; [exact H2 |].
  cbn. destruct H1 as [t1 ->], H2 as [t2 ->]. apply Hb.
Qed.

(** X1.  When both fills are persisted with a solid colour, a query result with
    [n] categories and two value series of [n] values yields [2 * n]
    points: at [2 * i] the first-axis point of row [i], at [2 * i + 1] the
    second-axis point of row [i], [n] points on each axis. *)
Theorem visualTransform_two_points_per_category
    options dv c v1 v2 rest n f1 f2 k1 k2 s :
  passesGuard options dv c (v1 :: v2 :: rest) ->
  List.length (cat_values c) = n ->
  List.length (ser_values v1) = n ->
  List.length (ser_values v2) = n ->
  persisted (objects (metadata dv)) "colorSelector" "fill" = Some f1 ->
  solidColor f1 = Ok k1 ->
  persisted (objects (metadata dv)) "colorSelector" "fill2" = Some f2 ->
  solidColor f2 = Ok k2 ->
  exists vm s',
    visualTransform options s = (Ok vm, s') /\
    List.length (dataPoints vm) = (2 * n)%nat /\
    List.length (filter (fun p => Z.eqb (vaxis p) 1) (dataPoints vm)) = n /\
    List.length (filter (fun p => Z.eqb (vaxis p) 2) (dataPoints vm)) = n /\
    dataMax vm = maxLocal v1 /\ dataMax2 vm = maxLocal v2 /\
    forall i, (i < n)%nat ->
      exists p1 p2,
        nth_error (dataPoints vm) (2 * i) = Some p1 /\
        nth_error (dataPoints vm) (2 * i + 1) = Some p2 /\
        vaxis p1 = 1%Z /\ vaxis p2 = 2%Z /\
        value p1 = index (ser_values v1) i /\
        value p2 = index (ser_values v2) i /\
        category p1 = toString (index (cat_values c) i) /\
        category p2 = toString (index (cat_values c) i) /\
        color p1 = k1 /\ color p2 = k2.
Proof.
  intros Hg Hc Hv1 Hv2 Hf1 Hk1 Hf2 Hk2.
  rewrite (visualTransform_body s Hg). unfold bind at 1.
  rewrite defaultSettings_eq.
  match goal with
  | |- context [transformBody ?d dv c ?vals ?s1] =>
      set (defaults := d); set (t := s1)
  end.
  assert (Hst : exists st,
             fst (resolveSettings defaults (objects (metadata dv)) t) = Ok st /\
             colorSelector st = Some {| color1 := k1; color2 := k2 |}).
  { unfold resolveSettings, bind, pure, getValue, defaults. cbn.
    rewrite Hf1, Hf2. unfold solidColor in Hk1, Hk2.
    destruct (getProp f1 "solid") as [x1 |]; [| discriminate Hk1].
    cbn. rewrite Hk1. cbn.
    destruct (getProp f2 "solid") as [x2 |]; [| discriminate Hk2].
    cbn. rewrite Hk2. cbn. eexists. split; reflexivity. }
  destruct Hst as (st & Hst & Hcol).
  destruct (transformBody_returns defaults dv c (v1 :: v2 :: rest) t Hst
              eq_refl eq_refl) as (vm & s' & Hrun).
  exists vm, s'. split; [exact Hrun |].
  apply transformBody_inv in Hrun
    as (st' & colors & w1 & w2 & l & Hst' & Hcol' & Hw1 & Hw2 & Hl & ->).
  cbn in Hw1, Hw2. inversion Hw1; inversion Hw2; subst w1 w2.
  rewrite Hst in Hst'. inversion Hst'; subst st'.
  rewrite Hcol in Hcol'. inversion Hcol'; subst colors.
  rewrite Hc, Hv1, Nat.max_id in Hl. cbn [dataPoints dataMax dataMax2].
  destruct (Emitted_count Hl) as [Hc1 Hc2].
  split; [exact (Emitted_length Hl) |].
  split; [exact Hc1 |]. split; [exact Hc2 |].
  split; [reflexivity |]. split; [reflexivity |].
  intros i Hi.
  destruct (Emitted_nth Hl Hi) as (id1 & id2 & _ & _ & Hn1 & Hn2).
  cbn [Nat.add] in Hn1, Hn2.
  eexists _, _. split; [exact Hn1 |]. split; [exact Hn2 |].
  repeat split; reflexivity.
Qed.

End TransformFacts.

(** ** Facts about the renderer *)

Section RendererFacts.
Context {rt : JSRuntime} {host : IVisualHost} {d3 : D3}.

Lemma update_inv options st st' :
  update options st = (Ok tt, st') ->
  exists viewModel h axis general,
    visualTransform options (hostState st) = (Ok viewModel, h) /\
    enableAxis (settings viewModel) = Some axis /\
    generalView (settings viewModel) = Some general /\
    st' = drawn options viewModel h axis general.
Proof.
  unfold update. intros H.
  apply bind_inv in H as (vm & st1 & Hvm & H).
  unfold withHost in Hvm.
  destruct (visualTransform options (hostState st)) as [r h] eqn:Hrun.
  inversion Hvm; subst r st1; clear Hvm.
  apply bind_inv in H as ([] & st2 & Hst2 & H).
  inversion Hst2; subst st2; clear Hst2.
  apply bind_inv in H as (axis & st3 & Haxis & H).
  apply deref_inv in Haxis as [Haxis ->].
  apply bind_inv in H as ([] & st4 & Hst4 & H).
  inversion Hst4; subst st4; clear Hst4.
  apply bind_inv in H as (general & st5 & Hgen & H).
  apply deref_inv in Hgen as [Hgen ->].
  apply bind_inv in H as (allow & st6 & Hallow & H).
  inversion Hallow; subst allow st6; clear Hallow.
  inversion H; subst st'; clear H.
  exists vm, h, axis, general. repeat split; auto.
Qed.

Ltac number_arith :=
  unfold nadd, nsub, nmul, ndiv, nlift2, ofZ, numEq, inject_Z;
  change (Qeq_bool (1 # 1) 0) with false;
  change (Qeq_bool (2 # 1) 0) with false;
  change (Qeq_bool 4 0) with false;
  cbv beta iota; rewrite ?Qred_correct.

Lemma rect_barSpec h yScale yScale2 xScale o d :
  barSpec h yScale yScale2 xScale (rect h yScale yScale2 xScale o d).
Proof.
  unfold barSpec.
  cbn [rect datum attr_width attr_height attr_y attr_x].
  unfold barWidth, barHeight, barY, barX, secondTerm, firstTerm.
  split; [| split].
  - intros ->. number_arith. split; [field | ring].
  - intros ->. number_arith. split; field.
  - intros s1 s2 -> ->.
    split; intros ->; number_arith; split; ring.
Qed.

(** C3 (as amended).  A completed [update] draws one bar per data point
    of the view model, in order, and every bar satisfies: on axis 1,
    width = band width and x = band start; on axis 2, width = band
    width / 2 and x = band start + band width / 4; and, when both scales
    map its value to a finite number: on axis 1, height = height -
    scale1(value) and y = scale1(value); on axis 2, height = height -
    scale2(value) and y = scale2(value).  Bars of both axes thus end at
    the bottom ([y + height] is the usable height).  Every bar is on axis
    1 or on axis 2. *)
Theorem C3_bar_attributes options st st' :
  update options st = (Ok tt, st') ->
  exists viewModel h axis settings yScale yScale2 xScale,
    visualTransform options (hostState st) = (Ok viewModel, h) /\
    map datum (bars st') = dataPoints viewModel /\
    List.length (bars st') = List.length (dataPoints viewModel) /\
    barDataPoints st' = Some (dataPoints viewModel) /\
    barChartSettings st' = Some settings /\
    enableAxis settings = Some axis /\
    yAxis st' = Some yScale /\ yAxis2 st' = Some yScale2 /\
    xAxis st' = Some xScale /\
    range yScale = (Some (usableHeight options axis), Some 0%Q) /\
    range yScale2 = (Some (usableHeight options axis), Some 0%Q) /\
    Forall (barSpec (usableHeight options axis) yScale yScale2 xScale)
      (bars st') /\
    Forall (fun b => vaxis (datum b) = 1%Z \/ vaxis (datum b) = 2%Z) (bars st').
Proof.
  intros H.
  apply update_inv in H as (vm & h & axis & general & Hrun & Haxis & Hgen & ->).
  exists vm, h, axis, (settings vm). cbn.
  eexists _, _, _. split; [exact Hrun |].
  split; [rewrite map_map; cbn; apply map_id |].
  split; [apply length_map |].
  repeat (split; [reflexivity || exact Haxis |]).
  split.
  - apply Forall_map, Forall_forall. intros d _. apply rect_barSpec.
  - apply Forall_map. cbn.
    destruct (visualTransform_inv _ _ Hrun)
      as [-> | (dv & c & vals & defaults & s1 & _ & _ & Hbody)];
      [constructor |].
    apply transformBody_inv in Hbody
      as (? & colors & v1 & v2 & l & _ & _ & _ & _ & Hl & ->).
    exact (Emitted_vaxis Hl).
Qed.

Lemma primary_domain_100_120 m t :
  (m == 100)%Q -> (t == 120)%Q ->
  nmul (Some m) (nsub (Some 2%Q) (ndiv (Some t) (Some 100%Q))) = Some 80%Q.
Proof.
  intros Hm Ht. unfold nmul, nsub, ndiv, nlift2.
  change (Qeq_bool 100 0) with false. cbv beta iota. f_equal.
  change 80%Q with (Qred 80). apply Qred_complete.
  rewrite !Qred_correct, Hm, Ht. reflexivity.
Qed.

Lemma secondary_domain_50_120 m t :
  (m == 50)%Q -> (t == 120)%Q ->
  nmul (Some m) (ndiv (Some t) (Some 100%Q)) = Some 60%Q.
Proof.
  intros Hm Ht. unfold nmul, ndiv, nlift2.
  change (Qeq_bool 100 0) with false. cbv beta iota. f_equal.
  change 60%Q with (Qred 60). apply Qred_complete.
  rewrite !Qred_correct, Hm, Ht. reflexivity.
Qed.

(** C4.  A completed [update] draws the primary axis with a linear scale of
    domain [0, dataMax * (2 - y2trim / 100)] and the secondary axis with
    one of domain [0, dataMax2 * (y2trim / 100)], both of range
    [height, 0], [height] being the usable height; with dataMax = 100 and
    y2trim = 120 the primary domain is [0, 80], and with dataMax2 = 50 and
    y2trim = 120 the secondary domain is [0, 60]. *)
Theorem C4_scale_domains options st st' :
  update options st = (Ok tt, st') ->
  exists viewModel h axis general yScale yScale2,
    visualTransform options (hostState st) = (Ok viewModel, h) /\
    enableAxis (settings viewModel) = Some axis /\
    generalView (settings viewModel) = Some general /\
    yAxis st' = Some yScale /\ yAxis2 st' = Some yScale2 /\
    domain yScale =
      (Some 0%Q,
       nmul (toNumber (dataMax viewModel))
            (nsub (Some 2%Q) (ndiv (toNumber (y2trim general)) (Some 100%Q)))) /\
    domain yScale2 =
      (Some 0%Q,
       nmul (toNumber (dataMax2 viewModel))
            (ndiv (toNumber (y2trim general)) (Some 100%Q))) /\
    range yScale = (Some (usableHeight options axis), Some 0%Q) /\
    range yScale2 = (Some (usableHeight options axis), Some 0%Q) /\
    (forall m t,
        toNumber (dataMax viewModel) = Some m -> (m == 100)%Q ->
        toNumber (y2trim general) = Some t -> (t == 120)%Q ->
        domain yScale = (Some 0%Q, Some 80%Q)) /\
    (forall m t,
        toNumber (dataMax2 viewModel) = Some m -> (m == 50)%Q ->
        toNumber (y2trim general) = Some t -> (t == 120)%Q ->
        domain yScale2 = (Some 0%Q, Some 60%Q)).
Proof.
  intros H.
  apply update_inv in H as (vm & h & axis & general & Hrun & Haxis & Hgen & ->).
  exists vm, h, axis, general. cbn. eexists _, _.
  repeat (split; [reflexivity || assumption |]).
  split; intros m t -> Hm -> Ht; cbn [domain]; f_equal.
  - apply primary_domain_100_120; assumption.
  - apply secondary_domain_50_120; assumption.
Qed.

Lemma selectThis_length k f l : List.length (selectThis k f l) = List.length l.
Proof.
  revert k; induction l as [| b l IH]; intros [| k]; cbn; auto.
Qed.

Lemma selectThis_nth k f l : forall j,
  nth_error (selectThis k f l) j =
  if Nat.eqb j k then option_map f (nth_error l j) else nth_error l j.
Proof.
  revert k; induction l as [| b l IH]; intros k j.
  - destruct k, j; cbn;
      try match goal with |- context [if ?c then _ else _] => destruct c end;
      reflexivity.
  - destruct k as [| k], j as [| j]; cbn; try reflexivity. apply IH.
Qed.

Lemma selected_nth k ids l j b :
  nth_error (selected k ids l) j = Some b ->
  fill_opacity b =
    if Nat.eqb j k then Config.solidOpacity
    else if (0 <? List.length ids)%nat then Config.transparentOpacity
         else Config.solidOpacity.
Proof.
  unfold selected. rewrite selectThis_nth, nth_error_map.
  destruct (nth_error l j) as [x |]; destruct (Nat.eqb j k); cbn;
    intros H; inversion H; reflexivity.
Qed.

Lemma selected_length k ids l :
  List.length (selected k ids l) = List.length l.
Proof.
  unfold selected. rewrite selectThis_length. apply length_map.
Qed.

(** C6.  After a completed [update] under a host that allows interactions,
    a click on the bar of data point [P] whose selection promise resolves
    with the one-element list [[P.selectionId]] leaves the bar of [P] with
    fill-opacity 1 and every other bar with fill-opacity 0.5; no bar is
    added or removed. *)
Theorem C6_click_selects options st st' k P :
  update options st = (Ok tt, st') ->
  allowInteractions (hostState st') = true ->
  nth_error (bars st') k = Some P ->
  let after := click k [selectionId (datum P)] st' in
  List.length (bars after) = List.length (bars st') /\
  forall j b,
    nth_error (bars after) j = Some b ->
    fill_opacity b = if Nat.eqb j k then Some 1%Q else Some (1 # 2)%Q.
Proof.
  intros H Hallow HP.
  apply update_inv in H as (vm & h & axis & general & _ & _ & _ & ->).
  cbn in Hallow. unfold click. cbn [clickAllowed drawn]. rewrite Hallow.
  cbn [bars]. split; [apply selected_length |].
  intros j b Hb. rewrite (selected_nth _ _ _ _ Hb). reflexivity.
Qed.

Lemma selected_keeps_shape k ids l :
  map shape (selected k ids l) = map shape l.
Proof.
  apply nth_error_ext. intros j. unfold selected.
  rewrite !nth_error_map, selectThis_nth, nth_error_map.
  destruct (nth_error l j) as [b |]; destruct (Nat.eqb j k); reflexivity.
Qed.

Lemma selected_empty_opacity k l :
  map fill_opacity (selected k [] l) = map (fun _ => Config.solidOpacity) l.
Proof.
  apply nth_error_ext. intros j. unfold selected.
  rewrite !nth_error_map, selectThis_nth, nth_error_map.
  destruct (nth_error l j) as [b |]; destruct (Nat.eqb j k); reflexivity.
Qed.

(** C10.  After a completed [update] under a host that allows interactions,
    every bar has the fill-opacity opacity / 100 of the settings.  A click
    whose selection promise resolves with the empty list keeps every bar,
    with its datum, geometry and fill, and sets the fill-opacity of every
    one of them to the constant 1, whatever the opacity of the settings;
    the next completed [update] draws one bar per data point of its view
    model and sets the fill-opacity of every bar to opacity / 100 of the
    settings it resolves. *)
Theorem C10_deselect_resets_opacity options st st' k :
  update options st = (Ok tt, st') ->
  allowInteractions (hostState st') = true ->
  let after := click k [] st' in
  (exists settings general,
      barChartSettings st' = Some settings /\
      generalView settings = Some general /\
      map fill_opacity (bars st') =
        map (fun _ => ndiv (toNumber (opacity general)) (Some 100%Q))
            (bars st')) /\
  map shape (bars after) = map shape (bars st') /\
  List.length (bars after) = List.length (bars st') /\
  map fill_opacity (bars after) =
    map (fun _ => Config.solidOpacity) (bars st') /\
  (forall b, In b (bars after) -> fill_opacity b = Config.solidOpacity) /\
  (forall options' st'',
      update options' after = (Ok tt, st'') ->
      exists settings general viewModel h,
        visualTransform options' (hostState st') = (Ok viewModel, h) /\
        map datum (bars st'') = dataPoints viewModel /\
        barChartSettings st'' = Some settings /\
        generalView settings = Some general /\
        map fill_opacity (bars st'') =
          map (fun _ => ndiv (toNumber (opacity general)) (Some 100%Q))
              (dataPoints viewModel) /\
        forall b, In b (bars st'') ->
          fill_opacity b = ndiv (toNumber (opacity general)) (Some 100%Q)).
Proof.
  intros H Hallow.
  apply update_inv in H as (vm & h & axis & general & _ & _ & Hgen & ->).
  cbn in Hallow. unfold click. cbn [clickAllowed drawn]. rewrite Hallow.
  cbn zeta. cbn [bars drawn hostState barChartSettings].
  split; [| split; [| split; [| split; [| split]]]].
  - exists (settings vm), general. split; [reflexivity |].
    split; [exact Hgen |]. rewrite !map_map. reflexivity.
  - apply selected_keeps_shape.
  - apply selected_length.
  - apply selected_empty_opacity.
  - intros b Hb. apply In_nth_error in Hb as [j Hj].
    rewrite (selected_nth _ _ _ _ Hj). cbn. destruct (Nat.eqb j k); reflexivity.
  - intros options' st'' H'.
    apply update_inv in H'
      as (vm' & h' & axis' & general' & Hrun' & _ & Hgen' & ->).
    exists (settings vm'), general', vm', h'. cbn [hostState] in Hrun'.
    split; [exact Hrun' |]. cbn [bars drawn barChartSettings].
    split; [rewrite map_map; cbn; apply map_id |].
    split; [reflexivity |]. split; [exact Hgen' |].
    split; [rewrite map_map; reflexivity |].
    intros b Hb. apply in_map_iff in Hb as (d & <- & _). reflexivity.
Qed.

(** X3.  A name the enumerator does not know yields the empty list, in
    every state of the visual, and leaves the visual as it was. *)
Theorem enumerateObjectInstances_unrecognized name st :
  name <> "enableAxis" -> name <> "colorSelector" -> name <> "generalView" ->
  enumerateObjectInstances name st = (Ok [], st).
Proof.
  intros H1 H2 H3. unfold enumerateObjectInstances.
  apply String.eqb_neq in H1, H2, H3. rewrite H1, H2, H3. reflexivity.
Qed.

(** C5.  The claim: after at least one [update], also one that took the
    guard path, [enumerateObjectInstances] never errors.  The code: the
    guard path stores the settings object [{}]; [update] itself then throws
    on [settings.enableAxis.show], and the enumerator throws a [TypeError]
    for each of the three names it knows, reading a member of an undefined
    member. *)
Theorem C5_enumerate_after_guard_path_throws (h : HostState) (vp : IViewport) :
  let options := {| dataViews := None; viewport := vp |} in
  let run := update options (constructor h) in
  fst (visualTransform options h) = Ok emptyViewModel /\
  fst run = Throw TypeError /\
  barChartSettings (snd run) = Some noSettings /\
  fst (enumerateObjectInstances "enableAxis" (snd run)) = Throw TypeError /\
  fst (enumerateObjectInstances "colorSelector" (snd run)) = Throw TypeError /\
  fst (enumerateObjectInstances "generalView" (snd run)) = Throw TypeError.
Proof.
  intros options run. subst run.
  unfold update, bind, withHost, options, visualTransform.
  cbn [hostState constructor]. unfold bind. rewrite defaultSettings_eq.
  cbn. repeat split.
Qed.

(** X4.  After a completed [update] the enumerator is a read of the stored
    settings: for every name it returns a list of at most one entry and
    leaves the visual as it was; for [generalView] the entry carries the
    stored opacity and y2trim with the ranges 10-100 and 50-150. *)
Theorem enumerateObjectInstances_after_update options st st' :
  update options st = (Ok tt, st') ->
  (forall name, exists l,
      enumerateObjectInstances name st' = (Ok l, st') /\
      (List.length l <= 1)%nat) /\
  exists settings general,
    barChartSettings st' = Some settings /\
    generalView settings = Some general /\
    enumerateObjectInstances "generalView" st' =
      (Ok [ {| objectName := "generalView"; displayName := None;
               properties := [("opacity", opacity general);
                              ("y2trim", y2trim general)];
               validValues := [("opacity", (10, 100)%Q);
                               ("y2trim", (50, 150)%Q)];
               selector := VNull |} ],
       st').
Proof.
  intros H.
  apply update_inv in H as (vm & h & axis & general & Hrun & Haxis & Hgen & ->).
  assert (Hcol : exists colors, colorSelector (settings vm) = Some colors).
  { destruct (visualTransform_inv _ _ Hrun)
      as [-> | (dv & c & vals & defaults & s1 & _ & _ & Hbody)];
      [discriminate Haxis |].
    apply transformBody_inv in Hbody
      as (? & colors & v1 & v2 & l & _ & Hc & _ & _ & _ & ->).
    exists colors. exact Hc. }
  destruct Hcol as [colors Hcol].
  split.
  - intros name. unfold enumerateObjectInstances.
    destruct (String.eqb name "enableAxis");
      [| destruct (String.eqb name "colorSelector");
         [| destruct (String.eqb name "generalView")]];
      unfold bind, gets; cbn [barChartSettings drawn deref ret];
      rewrite ?Haxis, ?Hcol, ?Hgen; cbn [deref ret];
      eexists; (split; [reflexivity | cbn; lia]).
  - exists (settings vm), general.
    split; [reflexivity |]. split; [exact Hgen |].
    unfold enumerateObjectInstances, bind, gets.
    cbn [barChartSettings drawn deref ret String.eqb Ascii.eqb Bool.eqb].
    rewrite Hgen. reflexivity.
Qed.

End RendererFacts.


(** ** More facts about [visualTransform] *)

Section MoreTransformFacts.
Context {rt : JSRuntime} {host : IVisualHost}.

Lemma index_beyond l i : (List.length l <= i)%nat -> index l i = VUndefined.
Proof.
  intros H. unfold index. apply nth_error_None in H. rewrite H. reflexivity.
Qed.

(** Settings resolution against the defaults of [defaultSettings], whose
    colours are strings. *)
Lemma resolveSettings_defaults objs c1 c2 s st :
  fst (resolveSettings
         {| enableAxis := Some {| show := VBool true |};
            colorSelector := Some {| color1 := VStr c1; color2 := VStr c2 |};
            generalView := Some {| opacity := VNum 100; y2trim := VNum 120 |} |}
         objs s) = Ok st <->
  exists k1 k2, fillsResolve objs k1 k2 /\ st = resolved objs k1 k2.
Proof.
  unfold resolveSettings, bind, pure, fillsResolve, resolved, solidColor.
  cbn [deref ret enableAxis colorSelector generalView show color1 color2
       opacity y2trim fst].
  unfold getValue.
  split.
  - destruct (persisted objs "colorSelector" "fill") as [f1 |];
      [| cbn; discriminate].
    destruct (getProp f1 "solid") as [x1 |] eqn:E1; [| cbn; discriminate].
    cbn beta iota.
    destruct (getProp x1 "color") as [k1 |] eqn:E2; [| cbn; discriminate].
    cbn beta iota.
    destruct (persisted objs "colorSelector" "fill2") as [f2 |];
      [| cbn; discriminate].
    destruct (getProp f2 "solid") as [x2 |] eqn:E3; [| cbn; discriminate].
    cbn beta iota.
    destruct (getProp x2 "color") as [k2 |] eqn:E4; [| cbn; discriminate].
    cbn. intros H. inversion H; subst st; clear H.
    exists k1, k2. split; [| reflexivity].
    exists f1, f2. rewrite E1, E3. auto.
  - intros (k1 & k2 & (f1 & f2 & -> & H1 & -> & H2) & ->).
    destruct (getProp f1 "solid") as [x1 |]; [| discriminate H1].
    cbn beta iota. rewrite H1. cbn beta iota.
    destruct (getProp f2 "solid") as [x2 |]; [| discriminate H2].
    cbn beta iota. rewrite H2. reflexivity.
Qed.

Lemma passesGuard_functional options dv c vals dv' c' vals' :
  passesGuard options dv c vals -> passesGuard options dv' c' vals' ->
  dv = dv' /\ c = c' /\ vals = vals'.
Proof.
  intros (dvs & cat & cats & Hd & Hc & Hcs & _ & Hv)
         (dvs' & cat' & cats' & Hd' & Hc' & Hcs' & _ & Hv').
  rewrite Hd in Hd'. inversion Hd'; subst dv' dvs'.
  rewrite Hc in Hc'. inversion Hc'; subst cat'.
  rewrite Hcs in Hcs'. inversion Hcs'; subst c' cats'.
  rewrite Hv in Hv'. inversion Hv'. auto.
Qed.

(** What [visualTransform] returns for an input past the guard. *)
Lemma visualTransform_passed options dv c vals s vm s' :
  passesGuard options dv c vals ->
  visualTransform options s = (Ok vm, s') ->
  exists v1 v2 k1 k2 l,
    nth_error vals 0 = Some v1 /\ nth_error vals 1 = Some v2 /\
    fillsResolve (objects (metadata dv)) k1 k2 /\
    Emitted c v1 v2 {| color1 := k1; color2 := k2 |} 0
      (Nat.max (List.length (cat_values c)) (List.length (ser_values v1))) l /\
    vm = {| dataPoints := l; dataMax := maxLocal v1; dataMax2 := maxLocal v2;
            settings := resolved (objects (metadata dv)) k1 k2 |}.
Proof.
  intros Hg Hrun.
  rewrite (visualTransform_body s Hg) in Hrun.
  apply bind_inv in Hrun as (defaults & s1 & Hd & Hrun).
  rewrite defaultSettings_eq in Hd. inversion Hd; subst defaults s1; clear Hd.
  apply transformBody_inv in Hrun
    as (st & colors & v1 & v2 & l & Hst & Hc & Hv1 & Hv2 & Hl & ->).
  apply resolveSettings_defaults in Hst as (k1 & k2 & Hf & ->).
  cbn in Hc. inversion Hc; subst colors; clear Hc.
  exists v1, v2, k1, k2, l. auto.
Qed.

Lemma visualTransform_drawable options dv c vals s v1 v2 k1 k2 :
  passesGuard options dv c vals ->
  nth_error vals 0 = Some v1 -> nth_error vals 1 = Some v2 ->
  fillsResolve (objects (metadata dv)) k1 k2 ->
  exists vm s', visualTransform options s = (Ok vm, s').
Proof.
  intros Hg Hv1 Hv2 Hf.
  rewrite (visualTransform_body s Hg). unfold bind at 1.
  rewrite defaultSettings_eq.
  eapply transformBody_returns; eauto.
  apply resolveSettings_defaults. eauto.
Qed.

(** Among the view models [visualTransform] returns, only the one of the
    guard path lacks the settings' members. *)
Lemma visualTransform_members options s vm s' axis :
  visualTransform options s = (Ok vm, s') ->
  enableAxis (settings vm) = Some axis ->
  exists dv c vals, passesGuard options dv c vals.
Proof.
  intros Hrun Haxis.
  destruct (visualTransform_inv _ _ Hrun)
    as [-> | (dv & c & vals & _ & _ & Hg & _)]; [discriminate Haxis |].
  eauto.
Qed.

(** X5.  For an input that passes the guard, [visualTransform] returns
    exactly when both value series are there and both fills are persisted
    with a [solid] member whose [color] can be read; in every other case
    it throws a [TypeError]. *)
Theorem visualTransform_returns_iff options dv c vals s :
  passesGuard options dv c vals ->
  ((exists vm s', visualTransform options s = (Ok vm, s')) <->
   (exists v1 v2 k1 k2,
      nth_error vals 0 = Some v1 /\ nth_error vals 1 = Some v2 /\
      fillsResolve (objects (metadata dv)) k1 k2)) /\
  ((forall vm s', visualTransform options s <> (Ok vm, s')) ->
   fst (visualTransform options s) = Throw TypeError).
Proof.
  intros Hg. split; [split |].
  - intros (vm & s' & Hrun).
    destruct (visualTransform_passed _ Hg Hrun)
      as (v1 & v2 & k1 & k2 & l & Hv1 & Hv2 & Hf & _).
    exists v1, v2, k1, k2. auto.
  - intros (v1 & v2 & k1 & k2 & Hv1 & Hv2 & Hf).
    exact (visualTransform_drawable s Hg Hv1 Hv2 Hf).
  - intros Hno. apply not_Ok_Throw. intros vm Hvm.
    destruct (visualTransform options s) as [r s'] eqn:Hrun.
    cbn in Hvm. subst r. exact (Hno vm s' eq_refl).
Qed.

(** X6.  Whenever [visualTransform] returns for an input that passes the
    guard, the settings it resolved are: for [show], [opacity] and
    [y2trim] the persisted property, or [true], [100], [120] where none is
    persisted; for the two colours the [solid.color] of the persisted
    fills, which every data point then carries.  The maxima are the
    declared [maxLocal] of the two series. *)
Theorem visualTransform_settings options dv c vals s vm s' :
  passesGuard options dv c vals ->
  visualTransform options s = (Ok vm, s') ->
  exists v1 v2 k1 k2,
    nth_error vals 0 = Some v1 /\ nth_error vals 1 = Some v2 /\
    fillsResolve (objects (metadata dv)) k1 k2 /\
    settings vm = resolved (objects (metadata dv)) k1 k2 /\
    dataMax vm = maxLocal v1 /\ dataMax2 vm = maxLocal v2 /\
    Forall (fun p => (vaxis p = 1%Z /\ color p = k1) \/
                     (vaxis p = 2%Z /\ color p = k2)) (dataPoints vm).
Proof.
  intros Hg Hrun.
  destruct (visualTransform_passed _ Hg Hrun)
    as (v1 & v2 & k1 & k2 & l & Hv1 & Hv2 & Hf & Hl & ->).
  exists v1, v2, k1, k2. cbn [settings dataMax dataMax2 dataPoints].
  repeat (split; [assumption || reflexivity |]).
  clear - Hl.
  induction Hl as [| i n id1 id2 l H1 H2 Hl IH]; [constructor |].
  constructor; [left; split; reflexivity |].
  constructor; [right; split; reflexivity | exact IH].
Qed.

(** X7.  The loop runs over max(number of category values, number of
    values of the first series); the length of the second series plays no
    part.  Row [i] gives the points at [2 * i] and [2 * i + 1]; where a
    column is shorter than [i] the read is [undefined]: the category is
    the string "undefined", the value is [undefined]. *)
Theorem visualTransform_ragged options dv c vals s vm s' :
  passesGuard options dv c vals ->
  visualTransform options s = (Ok vm, s') ->
  exists v1 v2,
    nth_error vals 0 = Some v1 /\ nth_error vals 1 = Some v2 /\
    let n := Nat.max (List.length (cat_values c)) (List.length (ser_values v1)) in
    List.length (dataPoints vm) = (2 * n)%nat /\
    forall i, (i < n)%nat ->
      exists p1 p2,
        nth_error (dataPoints vm) (2 * i) = Some p1 /\
        nth_error (dataPoints vm) (2 * i + 1) = Some p2 /\
        category p1 = toString (index (cat_values c) i) /\
        category p2 = category p1 /\
        value p1 = index (ser_values v1) i /\
        value p2 = index (ser_values v2) i /\
        ((List.length (cat_values c) <= i)%nat -> category p1 = "undefined") /\
        ((List.length (ser_values v1) <= i)%nat -> value p1 = VUndefined) /\
        ((List.length (ser_values v2) <= i)%nat -> value p2 = VUndefined).
Proof.
  intros Hg Hrun.
  destruct (visualTransform_passed _ Hg Hrun)
    as (v1 & v2 & k1 & k2 & l & Hv1 & Hv2 & _ & Hl & ->).
  exists v1, v2. split; [exact Hv1 |]. split; [exact Hv2 |].
  cbn [dataPoints]. split; [exact (Emitted_length Hl) |].
  intros i Hi.
  destruct (Emitted_nth Hl Hi) as (id1 & id2 & _ & _ & Hn1 & Hn2).
  cbn [Nat.add] in Hn1, Hn2.
  eexists _, _. split; [exact Hn1 |]. split; [exact Hn2 |].
  cbn. repeat split; try reflexivity;
    intros Hlen; rewrite (index_beyond _ Hlen); reflexivity.
Qed.

End MoreTransformFacts.

(** ** More facts about the renderer *)

Section MoreRendererFacts.
Context {rt : JSRuntime} {host : IVisualHost} {d3 : D3}.

Lemma update_complete options st viewModel h axis general :
  visualTransform options (hostState st) = (Ok viewModel, h) ->
  enableAxis (settings viewModel) = Some axis ->
  generalView (settings viewModel) = Some general ->
  update options st = (Ok tt, drawn options viewModel h axis general).
Proof.
  intros Hrun Haxis Hgen. unfold update, bind, withHost.
  rewrite Hrun. cbn. rewrite Haxis. cbn. rewrite Hgen. reflexivity.
Qed.

(** X8.  [update] draws exactly the inputs that pass the guard with both
    value series and both fills resolving; on every other input, the
    empty ones included, it throws a [TypeError]. *)
Theorem update_completes_iff options st :
  ((exists st', update options st = (Ok tt, st')) <-> drawable options) /\
  (~ drawable options -> fst (update options st) = Throw TypeError).
Proof.
  assert (Hiff : (exists st', update options st = (Ok tt, st')) <->
                 drawable options).
  { split.
    - intros (st' & H).
      apply update_inv in H as (vm & h & axis & general & Hrun & Haxis & _ & _).
      destruct (visualTransform_members _ _ Hrun Haxis) as (dv & c & vals & Hg).
      destruct (visualTransform_passed _ Hg Hrun)
        as (v1 & v2 & k1 & k2 & l & Hv1 & Hv2 & Hf & _).
      exists dv, c, vals, v1, v2, k1, k2. auto.
    - intros (dv & c & vals & v1 & v2 & k1 & k2 & Hg & Hv1 & Hv2 & Hf).
      destruct (visualTransform_drawable (hostState st) Hg Hv1 Hv2 Hf)
        as (vm & h & Hrun).
      destruct (visualTransform_passed _ Hg Hrun)
        as (? & ? & k1' & k2' & l & _ & _ & _ & _ & Hvm).
      eexists. eapply update_complete; [exact Hrun | |];
        rewrite Hvm; reflexivity. }
  split; [exact Hiff |].
  intros Hno. apply not_Ok_Throw. intros [] Hok.
  apply Hno, Hiff.
  destruct (update options st) as [r st'] eqn:Hrun. cbn in Hok. subst r. eauto.
Qed.

(** The enumerator reads the stored settings and nothing else. *)
Lemma enumerateObjectInstances_reads name st st' :
  barChartSettings st = barChartSettings st' ->
  fst (enumerateObjectInstances name st) =
  fst (enumerateObjectInstances name st').
Proof.
  intros H. unfold enumerateObjectInstances.
  destruct (String.eqb name "enableAxis");
    [| destruct (String.eqb name "colorSelector");
       [| destruct (String.eqb name "generalView")]];
    unfold bind, gets; cbn beta iota; rewrite ?H;
    try reflexivity;
    (destruct (barChartSettings st') as [s |]; cbn; [| reflexivity]).
  - destruct (enableAxis s); reflexivity.
  - destruct (colorSelector s); reflexivity.
  - destruct (generalView s); reflexivity.
Qed.

(** X9.  When [visualTransform] throws, [update] throws the same error
    and leaves the visual as it was, the host's state apart: the stored
    settings and data points, the size, the axes, the bars with their
    attributes and their click handler are untouched, and the enumerator
    answers as before. *)
Theorem update_failed_transform_keeps_visual options st e :
  fst (visualTransform options (hostState st)) = Throw e ->
  let after := snd (update options st) in
  fst (update options st) = Throw e /\
  hostState after = snd (visualTransform options (hostState st)) /\
  barChartSettings after = barChartSettings st /\
  barDataPoints after = barDataPoints st /\
  svgSize after = svgSize st /\ axisFontSize after = axisFontSize st /\
  yAxis after = yAxis st /\ yAxis2 after = yAxis2 st /\ xAxis after = xAxis st /\
  bars after = bars st /\ clickAllowed after = clickAllowed st /\
  forall name,
    fst (enumerateObjectInstances name after) =
    fst (enumerateObjectInstances name st).
Proof.
  intros H. unfold update, bind, withHost.
  destruct (visualTransform options (hostState st)) as [r h].
  cbn in H. subst r. cbn. repeat split.
  intros name. apply enumerateObjectInstances_reads. reflexivity.
Qed.

(** X10.  When [visualTransform] takes the guard path, in whatever state
    the visual is, [update] throws a [TypeError] after it has stored the
    empty settings, the empty list of data points and the new size: the
    bars, the axes and the click handler of the previous [update] stay,
    and the enumerator throws from then on for the three names it knows. *)
Theorem update_guard_path_keeps_bars options st :
  fst (visualTransform options (hostState st)) = Ok emptyViewModel ->
  let after := snd (update options st) in
  fst (update options st) = Throw TypeError /\
  barChartSettings after = Some noSettings /\
  barDataPoints after = Some [] /\
  svgSize after = Some (width (viewport options), height (viewport options)) /\
  bars after = bars st /\ clickAllowed after = clickAllowed st /\
  yAxis after = yAxis st /\ yAxis2 after = yAxis2 st /\ xAxis after = xAxis st /\
  axisFontSize after = axisFontSize st /\
  forall name,
    name = "enableAxis" \/ name = "colorSelector" \/ name = "generalView" ->
    fst (enumerateObjectInstances name after) = Throw TypeError.
Proof.
  intros H. unfold update, bind, withHost.
  destruct (visualTransform options (hostState st)) as [r h].
  cbn in H. subst r. cbn. repeat split.
  intros name [-> | [-> | ->]]; reflexivity.
Qed.

(** X11.  A completed [update] overwrites the visual: the state it leaves
    depends on the input and on the host's state only, not on what was
    drawn or clicked before. *)
Theorem update_overwrites options st st' st1 :
  hostState st = hostState st' ->
  update options st = (Ok tt, st1) ->
  update options st' = (Ok tt, st1).
Proof.
  intros Hh H.
  apply update_inv in H as (vm & h & axis & general & Hrun & Haxis & Hgen & ->).
  rewrite Hh in Hrun. apply update_complete; assumption.
Qed.

Lemma Forall2_samePoint_category l l' :
  Forall2 samePoint l l' -> map category l = map category l'.
Proof.
  induction 1 as [| p q l l' (_ & Hc & _) _ IH]; cbn; [reflexivity |].
  rewrite Hc, IH. reflexivity.
Qed.

Lemma samePoint_sameBar h yScale yScale2 xScale o p q :
  samePoint p q ->
  sameBar (rect h yScale yScale2 xScale o p) (rect h yScale yScale2 xScale o q).
Proof.
  intros (Hv & Hc & Ha & Hcol & He).
  unfold sameBar, rect, barWidth, barHeight, barY, barX, secondTerm, firstTerm.
  cbn. rewrite Hv, Hc, Ha, Hcol.
  repeat split; try reflexivity; try assumption;
    rewrite <- ?Hv, <- ?Hc, <- ?Ha, <- ?Hcol; reflexivity.
Qed.

Lemma samePoints_sameBars h yScale yScale2 xScale o l l' :
  Forall2 samePoint l l' ->
  Forall2 sameBar (map (rect h yScale yScale2 xScale o) l)
                  (map (rect h yScale yScale2 xScale o) l').
Proof.
  induction 1 as [| p q l l' Hpq _ IH]; cbn; constructor;
    [apply samePoint_sameBar; exact Hpq | exact IH].
Qed.

(** X12.  With a palette that answers by key alone and a builder whose
    identifiers for one row are equal for the host, a second [update] on
    the input of a completed one completes as well and draws the same:
    the same size, font size, settings and scales, and bars that agree
    one by one in their attributes and data. *)
Theorem update_twice_draws_the_same options st st1 :
  deterministicPalette -> deterministicBuilder ->
  update options st = (Ok tt, st1) ->
  exists st2,
    update options st1 = (Ok tt, st2) /\
    barChartSettings st2 = barChartSettings st1 /\
    svgSize st2 = svgSize st1 /\ axisFontSize st2 = axisFontSize st1 /\
    yAxis st2 = yAxis st1 /\ yAxis2 st2 = yAxis2 st1 /\ xAxis st2 = xAxis st1 /\
    Forall2 sameBar (bars st1) (bars st2).
Proof.
  intros Hp Hb H.
  apply update_inv in H as (vm & h & axis & general & Hrun & Haxis & Hgen & ->).
  pose proof (agrees_visualTransform options Hp Hb (hostState st) h) as Hag.
  rewrite Hrun in Hag. cbn [fst] in Hag.
  destruct (visualTransform options h) as [[vm' | e] h'] eqn:Hrun';
    cbn in Hag; [| contradiction].
  destruct Hag as (Hpts & Hmax & Hmax2 & Hset).
  exists (drawn options vm' h' axis general). split.
  - apply update_complete; cbn [hostState drawn]; rewrite <- ?Hset; assumption.
  - unfold drawn. cbn.
    rewrite <- Hset, <- Hmax, <- Hmax2, <- (Forall2_samePoint_category Hpts).
    repeat (split; [reflexivity |]).
    apply samePoints_sameBars. exact Hpts.
Qed.

(** *** The click handler *)

Lemma selected_nth_error k ids l j :
  nth_error (selected k ids l) j =
  option_map (setOpacity (highlight k ids j)) (nth_error l j).
Proof.
  unfold selected, highlight. rewrite selectThis_nth, nth_error_map.
  destruct (nth_error l j) as [b |]; destruct (Nat.eqb j k); reflexivity.
Qed.

Lemma selected_selected k ids k' ids' l :
  selected k ids (selected k' ids' l) = selected k ids l.
Proof.
  apply nth_error_ext. intros j. rewrite !selected_nth_error.
  destruct (nth_error l j) as [b |]; reflexivity.
Qed.

Lemma selected_shape k ids l : map shape (selected k ids l) = map shape l.
Proof.
  apply nth_error_ext. intros j.
  rewrite !nth_error_map, selected_nth_error.
  destruct (nth_error l j) as [b |]; reflexivity.
Qed.

(** X13.  A click changes nothing but fill-opacities: the bars keep their
    number, data, geometry and fill, and the stored settings and data
    points, the size, the axes, the host's state and the handler's
    permission are as before.  Where interactions were not allowed when
    the handler was registered, a click changes nothing at all. *)
Theorem click_changes_opacity_only k ids st :
  map shape (bars (click k ids st)) = map shape (bars st) /\
  hostState (click k ids st) = hostState st /\
  barChartSettings (click k ids st) = barChartSettings st /\
  barDataPoints (click k ids st) = barDataPoints st /\
  svgSize (click k ids st) = svgSize st /\
  axisFontSize (click k ids st) = axisFontSize st /\
  yAxis (click k ids st) = yAxis st /\ yAxis2 (click k ids st) = yAxis2 st /\
  xAxis (click k ids st) = xAxis st /\
  clickAllowed (click k ids st) = clickAllowed st /\
  (clickAllowed st = false -> click k ids st = st).
Proof.
  unfold click. destruct (clickAllowed st) eqn:Ha; cbn.
  - rewrite selected_shape. repeat split; auto. discriminate.
  - repeat split; auto.
Qed.

(** X14.  Of two selection callbacks the one that runs last decides: the
    visual is as if the first click had not happened.  In particular a
    click repeated with the same answer changes nothing more. *)
Theorem click_last_wins k ids k' ids' st :
  click k ids (click k' ids' st) = click k ids st.
Proof.
  unfold click. destruct (clickAllowed st) eqn:Ha; cbn; rewrite ?Ha;
    [| reflexivity].
  cbn. rewrite selected_selected. reflexivity.
Qed.

End MoreRendererFacts.

Section PairedBars.
Context {rt : JSRuntime} {host : IVisualHost} {d3 : D3}.

(** After a completed [update] the bars at [2 * i] and [2 * i + 1] are
    the rectangles of the two points of row [i]. *)
Lemma drawn_pair options st st' i :
  update options st = (Ok tt, st') ->
  (2 * i + 1 < List.length (bars st'))%nat ->
  exists c v1 v2 colors id1 id2 axis yScale yScale2 xScale o settings,
    (exists dv vals,
        passesGuard options dv c vals /\
        nth_error vals 0 = Some v1 /\ nth_error vals 1 = Some v2) /\
    builtFrom c i id1 /\ builtFrom c i id2 /\
    barChartSettings st' = Some settings /\ enableAxis settings = Some axis /\
    yAxis st' = Some yScale /\ yAxis2 st' = Some yScale2 /\
    xAxis st' = Some xScale /\
    nth_error (bars st') (2 * i) =
      Some (rect (usableHeight options axis) yScale yScale2 xScale o
              (firstPoint c v1 colors i id1)) /\
    nth_error (bars st') (2 * i + 1) =
      Some (rect (usableHeight options axis) yScale yScale2 xScale o
              (secondPoint c v2 colors i id2)).
Proof.
  intros H Hi.
  apply update_inv in H as (vm & h & axis & general & Hrun & Haxis & Hgen & ->).
  cbn [bars drawn] in Hi. rewrite length_map in Hi.
  destruct (visualTransform_members _ _ Hrun Haxis) as (dv & c & vals & Hg).
  destruct (visualTransform_passed _ Hg Hrun)
    as (v1 & v2 & k1 & k2 & l & Hv1 & Hv2 & _ & Hl & Hvm).
  rewrite Hvm in Hi. cbn [dataPoints] in Hi.
  rewrite (Emitted_length Hl) in Hi.
  destruct (Emitted_nth Hl (j := i) ltac:(lia))
    as (id1 & id2 & Hb1 & Hb2 & Hn1 & Hn2).
  cbn [Nat.add] in Hb1, Hb2, Hn1, Hn2.
  exists c, v1, v2, {| color1 := k1; color2 := k2 |}, id1, id2, axis.
  cbn [drawn bars yAxis yAxis2 xAxis barChartSettings].
  eexists _, _, _, _, _.
  split; [exists dv, vals; auto |].
  split; [exact Hb1 |]. split; [exact Hb2 |].
  split; [reflexivity |]. split; [exact Haxis |].
  split; [reflexivity |]. split; [reflexivity |]. split; [reflexivity |].
  rewrite !nth_error_map, Hvm. cbn [dataPoints]. rewrite Hn1, Hn2.
  split; reflexivity.
Qed.

(** X15.  The highlight goes by element, not by selection identity: after
    a completed [update] under a host that allows interactions and whose
    builder is deterministic, the two bars of a row carry identifiers that
    are equal for the host, and yet a click on the first whose promise
    resolves with any non-empty list leaves the clicked bar at fill-opacity
    1 and its partner at 0.5. *)
Theorem click_dims_the_partner options st st' i ids :
  deterministicBuilder ->
  update options st = (Ok tt, st') ->
  allowInteractions (hostState st') = true ->
  (2 * i + 1 < List.length (bars st'))%nat ->
  ids <> [] ->
  exists P S P' S',
    nth_error (bars st') (2 * i) = Some P /\
    nth_error (bars st') (2 * i + 1) = Some S /\
    category (datum P) = category (datum S) /\
    equals (selectionId (datum P)) (selectionId (datum S)) = true /\
    nth_error (bars (click (2 * i) ids st')) (2 * i) = Some P' /\
    nth_error (bars (click (2 * i) ids st')) (2 * i + 1) = Some S' /\
    shape P' = shape P /\ shape S' = shape S /\
    fill_opacity P' = Some 1%Q /\ fill_opacity S' = Some (1 # 2)%Q.
Proof.
  intros Hb H Hallow Hi Hids.
  destruct (drawn_pair _ _ i H Hi)
    as (c & v1 & v2 & colors & id1 & id2 & axis & yScale & yScale2 & xScale
        & o & settings & _ & [t1 ->] & [t2 ->] & _ & _ & _ & _ & _ & HP & HS).
  assert (Hca : clickAllowed st' = true).
  { apply update_inv in H as (? & ? & ? & ? & _ & _ & _ & ->). exact Hallow. }
  eexists _, _, _, _. split; [exact HP |]. split; [exact HS |].
  split; [reflexivity |]. split; [apply Hb |].
  unfold click. rewrite Hca. cbn [bars].
  rewrite !selected_nth_error, HP, HS. cbn [option_map].
  split; [reflexivity |]. split; [reflexivity |].
  split; [reflexivity |]. split; [reflexivity |].
  unfold highlight. rewrite Nat.eqb_refl.
  replace (Nat.eqb (2 * i + 1) (2 * i)) with false
    by (symmetry; apply Nat.eqb_neq; lia).
  destruct ids as [| id ids]; [contradiction Hids; reflexivity |].
  split; reflexivity.
Qed.

(** X16.  After a completed [update] the two bars of a row overlay each
    other: they are in the band of the same category, the bar of axis 2
    is half as wide as the bar of axis 1 and has the same centre, and,
    where both scales map a bar's value to a finite number, the bar ends
    at the usable height, the bottom of the chart. *)
Theorem paired_bars_overlay options st st' i :
  update options st = (Ok tt, st') ->
  (2 * i + 1 < List.length (bars st'))%nat ->
  exists P S settings axis yScale yScale2,
    nth_error (bars st') (2 * i) = Some P /\
    nth_error (bars st') (2 * i + 1) = Some S /\
    barChartSettings st' = Some settings /\ enableAxis settings = Some axis /\
    yAxis st' = Some yScale /\ yAxis2 st' = Some yScale2 /\
    vaxis (datum P) = 1%Z /\ vaxis (datum S) = 2%Z /\
    category (datum P) = category (datum S) /\
    attr_width S = ndiv (attr_width P) (Some 2%Q) /\
    nadd (attr_x S) (ndiv (attr_width S) (Some 2%Q)) =
      nadd (attr_x P) (ndiv (attr_width P) (Some 2%Q)) /\
    forall b, b = P \/ b = S ->
      linear yScale (value (datum b)) <> None ->
      linear yScale2 (value (datum b)) <> None ->
      numEq (nadd (attr_y b) (attr_height b))
            (Some (usableHeight options axis)).
Proof.
  intros H Hi.
  destruct (drawn_pair _ _ i H Hi)
    as (c & v1 & v2 & colors & id1 & id2 & axis & yScale & yScale2 & xScale
        & o & settings & _ & _ & _ & Hs & Ha & Hy & Hy2 & _ & HP & HS).
  eexists _, _, settings, axis, yScale, yScale2.
  split; [exact HP |]. split; [exact HS |].
  split; [exact Hs |]. split; [exact Ha |].
  split; [exact Hy |]. split; [exact Hy2 |].
  split; [reflexivity |]. split; [reflexivity |]. split; [reflexivity |].
  cbn [rect attr_width attr_x attr_y attr_height datum].
  unfold barWidth, barX, barY, barHeight, secondTerm, firstTerm.
  cbn [firstPoint secondPoint vaxis category value].
  split; [| split].
  - unfold ndiv, ofZ, inject_Z.
    change (Qeq_bool (1 # 1) 0) with false.
    change (Qeq_bool (2 # 1) 0) with false.
    change (Qeq_bool 2 0) with false. cbv beta iota.
    f_equal. apply Qred_complete. rewrite Qred_correct. field.
  - unfold nadd, nsub, nmul, ndiv, nlift2, ofZ, inject_Z.
    change (Qeq_bool (1 # 1) 0) with false.
    change (Qeq_bool (2 # 1) 0) with false.
    change (Qeq_bool 2 0) with false.
    change (Qeq_bool 4 0) with false. cbv beta iota.
    f_equal. apply Qred_complete. rewrite !Qred_correct. field.
  - intros b [-> | ->] H1 H2;
      cbn [rect attr_width attr_x attr_y attr_height datum] in H1, H2 |- *;
      unfold barY, barHeight, secondTerm, firstTerm;
      cbn [firstPoint secondPoint vaxis category value] in H1, H2 |- *.
    + destruct (linear yScale _) as [s1 |]; [| contradiction H1; reflexivity].
      destruct (linear yScale2 _) as [s2 |]; [| contradiction H2; reflexivity].
      unfold nadd, nsub, nmul, nlift2, ofZ, numEq, inject_Z.
      cbv beta iota. rewrite !Qred_correct. ring.
    + destruct (linear yScale _) as [s1 |]; [| contradiction H1; reflexivity].
      destruct (linear yScale2 _) as [s2 |]; [| contradiction H2; reflexivity].
      unfold nadd, nsub, nmul, nlift2, ofZ, numEq, inject_Z.
      cbv beta iota. rewrite !Qred_correct. ring.
Qed.

End PairedBars.

Section FormattingPane.
Context {rt : JSRuntime} {host : IVisualHost} {d3 : D3}.

(** X17.  The enumerator never writes, whether it returns or throws, and
    it returns exactly when the name is none of the three it knows or the
    stored settings have the member of that name: it throws a [TypeError]
    before the first [update] and after one that took the guard path. *)
Theorem enumerateObjectInstances_reads_only name st :
  snd (enumerateObjectInstances name st) = st /\
  ((exists l, fst (enumerateObjectInstances name st) = Ok l) <->
   (name <> "enableAxis" /\ name <> "colorSelector" /\ name <> "generalView")
   \/ exists s,
        barChartSettings st = Some s /\
        ((name = "enableAxis" /\ enableAxis s <> None) \/
         (name = "colorSelector" /\ colorSelector s <> None) \/
         (name = "generalView" /\ generalView s <> None))).
Proof.
  unfold enumerateObjectInstances.
  destruct (String.eqb_spec name "enableAxis") as [-> | N1];
    [| destruct (String.eqb_spec name "colorSelector") as [-> | N2];
       [| destruct (String.eqb_spec name "generalView") as [-> | N3]]];
    unfold bind, gets; cbn beta iota.
  - destruct (barChartSettings st) as [s |]; cbn.
    + destruct (enableAxis s) as [a |] eqn:E; cbn; (split; [reflexivity |]).
      * split; [| eauto]. intros _. right. exists s. rewrite E.
        split; [reflexivity |]. left. split; [reflexivity | discriminate].
      * split; [intros [l Hl]; discriminate Hl |].
        intros [(N & _) | (s' & Hs & [(_ & N) | [(N & _) | (N & _)]])];
          try discriminate N; try (contradiction N; reflexivity).
        inversion Hs; subst s'. contradiction.
    + split; [reflexivity |].
      split; [intros [l Hl]; discriminate Hl |].
      intros [(N & _) | (s' & Hs & _)];
        [contradiction N; reflexivity | discriminate Hs].
  - destruct (barChartSettings st) as [s |]; cbn.
    + destruct (colorSelector s) as [a |] eqn:E; cbn; (split; [reflexivity |]).
      * split; [| eauto]. intros _. right. exists s. rewrite E.
        split; [reflexivity |]. right. left.
        split; [reflexivity | discriminate].
      * split; [intros [l Hl]; discriminate Hl |].
        intros [(_ & N & _) | (s' & Hs & [(N & _) | [(_ & N) | (N & _)]])];
          try discriminate N; try (contradiction N; reflexivity).
        inversion Hs; subst s'. contradiction.
    + split; [reflexivity |].
      split; [intros [l Hl]; discriminate Hl |].
      intros [(_ & N & _) | (s' & Hs & _)];
        [contradiction N; reflexivity | discriminate Hs].
  - destruct (barChartSettings st) as [s |]; cbn.
    + destruct (generalView s) as [a |] eqn:E; cbn; (split; [reflexivity |]).
      * split; [| eauto]. intros _. right. exists s. rewrite E.
        split; [reflexivity |]. right. right.
        split; [reflexivity | discriminate].
      * split; [intros [l Hl]; discriminate Hl |].
        intros [(_ & _ & N) | (s' & Hs & [(N & _) | [(N & _) | (_ & N)]])];
          try discriminate N; try (contradiction N; reflexivity).
        inversion Hs; subst s'. contradiction.
    + split; [reflexivity |].
      split; [intros [l Hl]; discriminate Hl |].
      intros [(_ & _ & N) | (s' & Hs & _)];
        [contradiction N; reflexivity | discriminate Hs].
  - cbn. split; [reflexivity |]. split; [| eauto]. intros _. left. auto.
Qed.

(** X18.  What the formatting pane is shown is what the next [update]
    resolves: after a completed [update] the enumerator returns an entry
    list for each of its three names, and if the host persists the
    properties of those entries under their object names, then on every
    input that passes the guard with these objects [visualTransform]
    resolves the very settings the visual stored (and it returns whenever
    both value series are there). *)
Theorem formatting_pane_round_trip options st st1 :
  update options st = (Ok tt, st1) ->
  exists l1 l2 l3,
    enumerateObjectInstances "enableAxis" st1 = (Ok l1, st1) /\
    enumerateObjectInstances "colorSelector" st1 = (Ok l2, st1) /\
    enumerateObjectInstances "generalView" st1 = (Ok l3, st1) /\
    forall options' dv c vals s,
      passesGuard options' dv c vals ->
      objects (metadata dv) = Some (persist (l1 ++ l2 ++ l3)) ->
      (forall vm s',
          visualTransform options' s = (Ok vm, s') ->
          barChartSettings st1 = Some (settings vm)) /\
      (forall v1 v2,
          nth_error vals 0 = Some v1 -> nth_error vals 1 = Some v2 ->
          exists vm s', visualTransform options' s = (Ok vm, s')).
Proof.
  intros H.
  apply update_inv in H as (vm0 & h & axis & general & Hrun & Haxis & Hgen & ->).
  destruct (visualTransform_members _ _ Hrun Haxis) as (dv0 & c0 & vals0 & Hg0).
  destruct (visualTransform_passed _ Hg0 Hrun)
    as (? & ? & k1 & k2 & ? & _ & _ & _ & _ & Hvm0).
  rewrite Hvm0. clear Hrun Haxis Hgen Hvm0.
  set (objs0 := objects (metadata dv0)).
  unfold enumerateObjectInstances, bind, gets.
  cbn [String.eqb Ascii.eqb Bool.eqb barChartSettings drawn settings deref ret
       resolved enableAxis colorSelector generalView].
  eexists _, _, _.
  split; [reflexivity |]. split; [reflexivity |]. split; [reflexivity |].
  intros options' dv c vals s Hg Hobjs.
  assert (Hf : fillsResolve (objects (metadata dv)) k1 k2).
  { rewrite Hobjs. exists (fillOf k1), (fillOf k2). repeat split. }
  split.
  - intros vm s' Hrun'.
    destruct (visualTransform_passed _ Hg Hrun')
      as (? & ? & k1' & k2' & ? & _ & _ & Hf' & _ & ->).
    destruct Hf as (f1 & f2 & E1 & C1 & E2 & C2).
    destruct Hf' as (f1' & f2' & E1' & C1' & E2' & C2').
    rewrite E1 in E1'. inversion E1'; subst f1'.
    rewrite E2 in E2'. inversion E2'; subst f2'.
    rewrite C1 in C1'. inversion C1'; subst k1'.
    rewrite C2 in C2'. inversion C2'; subst k2'.
    cbn [settings]. rewrite Hobjs. reflexivity.
  - intros v1 v2 Hv1 Hv2.
    exact (visualTransform_drawable s Hg Hv1 Hv2 Hf).
Qed.

End FormattingPane.

Section TooltipFacts.
Context {rt : JSRuntime} {host : IVisualHost} {d3 : D3} {loc : Localization}.

Lemma getTooltipData_undefined locale d :
  value d = VUndefined \/ value d = VNull ->
  getTooltipData locale d = Throw TypeError.
Proof.
  intros H. unfold getTooltipData.
  destruct (getLocalizedString locale "LanguageKey") as [lang | []];
    [| reflexivity].
  destruct H as [-> | ->]; reflexivity.
Qed.

(** X19.  After a completed [update], the tooltip of a bar whose value is
    neither undefined nor null is one item with the bar's category, the
    value as [value + ''] gives it, and the bar's fill as colour (provided
    the localization look-up returns); but for a row beyond the end of
    the second series (or of the first), where the loop read [undefined],
    asking for the tooltip of that bar throws a [TypeError]. *)
Theorem tooltip_after_update options st st' locale :
  update options st = (Ok tt, st') ->
  (forall b language,
      In b (bars st') ->
      getLocalizedString locale "LanguageKey" = Ok language ->
      value (datum b) <> VUndefined -> value (datum b) <> VNull ->
      getTooltipData locale (datum b) =
        Ok [ {| tip_displayName := category (datum b);
                tip_value := toString (value (datum b));
                tip_color := fill b;
                tip_header := "" |} ]) /\
  (forall dv c vals v1 v2 i b,
      passesGuard options dv c vals ->
      nth_error vals 0 = Some v1 -> nth_error vals 1 = Some v2 ->
      ((List.length (ser_values v1) <= i)%nat /\
       nth_error (bars st') (2 * i) = Some b
       \/
       (List.length (ser_values v2) <= i)%nat /\
       nth_error (bars st') (2 * i + 1) = Some b) ->
      getTooltipData locale (datum b) = Throw TypeError).
Proof.
  intros H. split.
  - intros b language Hb Hlang Hu Hn.
    apply update_inv in H as (vm & h & axis & general & _ & _ & _ & ->).
    cbn [bars drawn] in Hb. apply in_map_iff in Hb as (d & <- & _).
    cbn [rect datum fill] in Hu, Hn |- *. unfold getTooltipData. rewrite Hlang.
    destruct (value d); try reflexivity; congruence.
  - intros dv c vals v1 v2 i b Hg Hv1 Hv2 Hb.
    assert (Hi : (2 * i + 1 < List.length (bars st'))%nat).
    { assert (Hlt : (2 * i < List.length (bars st'))%nat).
      { destruct Hb as [(_ & Hb) | (_ & Hb)];
          (assert (Hne : nth_error (bars st') _ <> None)
             by (rewrite Hb; discriminate));
          apply nth_error_Some in Hne; lia. }
      apply update_inv in H as (vm & h & axis & general & Hrun & Ha & _ & ->).
      cbn [bars drawn] in Hlt |- *. rewrite length_map in Hlt |- *.
      destruct (visualTransform_passed _ Hg Hrun)
        as (? & ? & ? & ? & l & _ & _ & _ & Hl & ->).
      cbn [dataPoints] in Hlt |- *.
      rewrite (Emitted_length Hl) in Hlt |- *. lia. }
    destruct (drawn_pair _ _ i H Hi)
      as (c' & w1 & w2 & colors & id1 & id2 & axis & yScale & yScale2 & xScale
          & o & settings & (dv' & vals' & Hg' & Hw1 & Hw2)
          & _ & _ & _ & _ & _ & _ & _ & HP & HS).
    destruct (passesGuard_functional Hg Hg') as (<- & <- & <-).
    rewrite Hv1 in Hw1. inversion Hw1; subst w1.
    rewrite Hv2 in Hw2. inversion Hw2; subst w2.
    apply getTooltipData_undefined. left.
    destruct Hb as [(Hlen & Hb) | (Hlen & Hb)].
    + rewrite HP in Hb. inversion Hb; subst b. cbn.
      apply index_beyond. exact Hlen.
    + rewrite HS in Hb. inversion Hb; subst b. cbn.
      apply index_beyond. exact Hlen.
Qed.

End TooltipFacts.


(** ** Runs in the reference environment *)

Import Sample.


Lemma query_passesGuard objs c cats vals :
  source c <> None ->
  passesGuard (query objs (c :: cats) vals) (view objs (c :: cats) vals) c vals.
Proof.
  intros H.
  exists [], {| categories := Some (c :: cats); values := Some vals |}, cats.
  repeat split; auto.
Qed.

Lemma categoryAB_source : source categoryAB <> None.
Proof. discriminate. Qed.

Lemma sample_deterministicPalette : deterministicPalette.
Proof. intros key s s'. reflexivity. Qed.

Lemma sample_deterministicBuilder : deterministicBuilder.
Proof.
  intros c i s s'. cbn. rewrite String.eqb_refl, Nat.eqb_refl. reflexivity.
Qed.

Lemma update_drawnOnce :
  update (twoSeries (Some colours)) (constructor 0%nat) = (Ok tt, drawnOnce).
Proof. vm_compute. reflexivity. Qed.

(** With one value series only, the transform throws. *)
Lemma C1_witness :
  fst (visualTransform oneSeries 0%nat) = Throw TypeError.
Proof.
  apply (@C1_absent_value_series_throws runtime host _ _ _ [firstSeries] 0%nat
           (query_passesGuard (Some colours) categoryAB [] [firstSeries]
              categoryAB_source)).
  right. reflexivity.
Defined.

(** C2.  The claim: every valid query result with N categories and two
    value series of N values yields 2N interleaved data points.  The code:
    on the query result with the categories A and B and two series of two
    values, and nothing persisted in the formatting pane, [visualTransform]
    throws a [TypeError] after the two palette look-ups of the defaults,
    before it pushes a point. *)
Theorem C2_valid_query_unpersisted_fills_throws :
  (exists dv,
     passesGuard (twoSeries None) dv categoryAB [firstSeries; secondSeries] /\
     objects (metadata dv) = None /\
     List.length (cat_values categoryAB) = 2%nat /\
     List.length (ser_values firstSeries) = 2%nat /\
     List.length (ser_values secondSeries) = 2%nat) /\
  visualTransform (twoSeries None) 0%nat = (Throw TypeError, 2%nat).
Proof.
  split; [| reflexivity].
  eexists. split; [apply query_passesGuard, categoryAB_source |].
  repeat split.
Qed.

Lemma C7_witness :
  fst (visualTransform (twoSeries None) 0%nat) = Throw TypeError.
Proof.
  apply (@C7_unpersisted_fill_throws runtime host _ _ _ _ 0%nat
           (query_passesGuard None categoryAB [] [firstSeries; secondSeries]
              categoryAB_source)).
  reflexivity.
Defined.

Lemma C8_witness :
  agree sameViewModel
    (fst (visualTransform (twoSeries (Some colours)) 0%nat))
    (fst (visualTransform (twoSeries (Some colours)) 8%nat)).
Proof.
  exact (@C8_visualTransform_deterministic runtime host
           (twoSeries (Some colours)) 0%nat
           sample_deterministicPalette sample_deterministicBuilder).
Defined.

Lemma C9_witness :
  exists c p1 p2,
    categoryColumn (twoSeries (Some colours)) = Some c /\
    vaxis p1 = 1%Z /\ vaxis p2 = 2%Z /\
    category p1 = "B" /\ category p2 = "B" /\
    builtFrom c 1 (selectionId p1) /\
    builtFrom c 1 (selectionId p2) /\
    equals (selectionId p1) (selectionId p2) = true.
Proof.
  destruct (@C9_pair_shares_selection_identity runtime host
              (twoSeries (Some colours)) 0%nat _ _ 1%nat
              sample_deterministicBuilder eq_refl)
    as (c & p1 & p2 & Hc & H1 & H2 & Ha1 & Ha2 & Hb1 & Hb2 & He).
  - cbn. lia.
  - exists c, p1, p2. cbn in H1, H2.
    inversion H1; subst p1. inversion H2; subst p2.
    repeat split; assumption.
Defined.

Lemma C3_witness :
  List.length (bars drawnOnce) = 4%nat /\
  map (fun b => (category (datum b), vaxis (datum b), value (datum b)))
      (bars drawnOnce)
    = [("A", 1%Z, VNum 20); ("A", 2%Z, VNum 15);
       ("B", 1%Z, VNum 100); ("B", 2%Z, VNum 50)] /\
  Forall (fun b => vaxis (datum b) = 1%Z \/ vaxis (datum b) = 2%Z)
    (bars drawnOnce) /\
  exists yScale yScale2 xScale,
    yAxis drawnOnce = Some yScale /\ yAxis2 drawnOnce = Some yScale2 /\
    xAxis drawnOnce = Some xScale /\
    Forall (barSpec 200 yScale yScale2 xScale) (bars drawnOnce).
Proof.
  destruct (@C3_bar_attributes runtime host d3 _ _ _ update_drawnOnce)
    as (vm & h & axis & settings & yScale & yScale2 & xScale
        & Hrun & Hdatum & Hlen & _ & Hs & Ha & Hy & Hy2 & Hx & Hr & Hr2
        & Hbars & Hvaxis).
  cbn in Hrun. inversion Hrun; subst vm h.
  split; [exact Hlen |].
  split.
  { rewrite <- (map_map datum
                  (fun d => (category d, vaxis d, value d))), Hdatum.
    reflexivity. }
  split; [exact Hvaxis |].
  exists yScale, yScale2, xScale. repeat split; try assumption.
  cbn in Hs. inversion Hs; subst settings. cbn in Ha. inversion Ha; subst axis.
  exact Hbars.
Defined.

(** C3 as stated fails.  The second bar drawn for [twoSeries] is on axis 2
    with value 15; the secondary scale maps 15 to 150, the usable height is
    200.  The claim gives the bar the height scale2(value) = 150 and anchors
    it to the top; the code gives it the height 200 - 150 = 50 and
    y = 150, so the bar ends at 200, the bottom.  And with the second
    series' maximum undeclared the secondary scale maps nothing to a number:
    the first bar, on axis 1 with scale1(value) = 150, then has no finite
    height, where the claim gives it 200 - 150. *)
Lemma C3_counterexample :
  (exists b yScale2,
     nth_error (bars drawnOnce) 1 = Some b /\
     yAxis2 drawnOnce = Some yScale2 /\
     vaxis (datum b) = 2%Z /\
     linear yScale2 (value (datum b)) = Some 150%Q /\
     attr_height b = Some 50%Q /\
     ~ numEq (attr_height b) (linear yScale2 (value (datum b))) /\
     attr_y b = Some 150%Q /\
     ~ numEq (attr_y b) (Some 0%Q) /\
     nadd (attr_y b) (attr_height b) = Some 200%Q) /\
  (exists b yScale,
     update undeclaredMaximum (constructor 0%nat) = (Ok tt, drawnUndeclared) /\
     nth_error (bars drawnUndeclared) 0 = Some b /\
     yAxis drawnUndeclared = Some yScale /\
     vaxis (datum b) = 1%Z /\
     linear yScale (value (datum b)) = Some 150%Q /\
     attr_height b = None /\
     ~ numEq (attr_height b) (Some (200 - 150)%Q)).
Proof.
  split.
  - eexists _, _. split; [reflexivity |]. split; [reflexivity |].
    repeat split; try reflexivity; vm_compute; discriminate.
  - eexists _, _. split; [vm_compute; reflexivity |].
    split; [reflexivity |]. split; [reflexivity |].
    repeat split; try reflexivity. vm_compute. auto.
Qed.

Lemma C4_witness :
  exists yScale yScale2,
    yAxis drawnOnce = Some yScale /\ yAxis2 drawnOnce = Some yScale2 /\
    domain yScale = (Some 0%Q, Some 80%Q) /\
    domain yScale2 = (Some 0%Q, Some 60%Q) /\
    range yScale = (Some 200%Q, Some 0%Q) /\
    range yScale2 = (Some 200%Q, Some 0%Q).
Proof.
  destruct (@C4_scale_domains runtime host d3 _ _ _ update_drawnOnce)
    as (vm & h & axis & general & yScale & yScale2
        & Hrun & Ha & Hg & Hy & Hy2 & Hd & Hd2 & Hr & Hr2 & H80 & H60).
  exists yScale, yScale2.
  cbn in Hrun. inversion Hrun; subst vm h.
  cbn in Ha, Hg. inversion Ha; subst axis. inversion Hg; subst general.
  split; [exact Hy |]. split; [exact Hy2 |].
  split; [apply (H80 100%Q 120%Q); reflexivity |].
  split; [apply (H60 50%Q 120%Q); reflexivity |].
  split; [exact Hr | exact Hr2].
Defined.

(** A click on the third bar, the first-axis bar of category B. *)
Lemma C6_witness :
  let after :=
    click 2 [ {| sid_column := "Category"; sid_index := 1; sid_serial := 6 |} ]
      drawnOnce in
  List.length (bars after) = List.length (bars drawnOnce) /\
  forall j b,
    nth_error (bars after) j = Some b ->
    fill_opacity b = if Nat.eqb j 2 then Some 1%Q else Some (1 # 2)%Q.
Proof.
  exact (@C6_click_selects runtime host d3 _ _ _ 2%nat _
           update_drawnOnce eq_refl eq_refl).
Defined.

(** The four bars drawn at opacity 50 / 100 are all there, and all at 1,
    after the click. *)
Lemma C10_witness :
  let after := click 0 [] drawnTranslucent in
  map fill_opacity (bars drawnTranslucent)
    = [Some (1 # 2); Some (1 # 2); Some (1 # 2); Some (1 # 2)]%Q /\
  map shape (bars after) = map shape (bars drawnTranslucent) /\
  List.length (bars after) = 4%nat /\
  map fill_opacity (bars after) = [Some 1; Some 1; Some 1; Some 1]%Q /\
  (forall options' st'',
      update options' after = (Ok tt, st'') ->
      exists settings general viewModel h,
        visualTransform options' (hostState drawnTranslucent)
          = (Ok viewModel, h) /\
        map datum (bars st'') = dataPoints viewModel /\
        barChartSettings st'' = Some settings /\
        generalView settings = Some general /\
        map fill_opacity (bars st'') =
          map (fun _ => ndiv (toNumber (opacity general)) (Some 100%Q))
              (dataPoints viewModel) /\
        forall b, In b (bars st'') ->
          fill_opacity b = ndiv (toNumber (opacity general)) (Some 100%Q)).
Proof.
  assert (Hup : update (twoSeries (Some translucent)) (constructor 0%nat)
                = (Ok tt, drawnTranslucent)) by (vm_compute; reflexivity).
  destruct (@C10_deselect_resets_opacity runtime host d3 _ _ _ 0%nat
              Hup eq_refl)
    as ((settings & general & Hs & Hg & Hbefore) & Hshape & Hlen & Hop & _
        & Hnext).
  cbn zeta.
  split.
  { rewrite Hbefore. cbn in Hs. inversion Hs; subst settings.
    cbn in Hg. inversion Hg; subst general. reflexivity. }
  split; [exact Hshape |].
  split; [rewrite Hlen; reflexivity |].
  split; [rewrite Hop; reflexivity |].
  exact Hnext.
Defined.

Lemma two_points_per_category_witness :
  exists vm s',
    visualTransform (twoSeries (Some colours)) 0%nat = (Ok vm, s') /\
    List.length (dataPoints vm) = 4%nat /\
    map vaxis (dataPoints vm) = [1; 2; 1; 2]%Z /\
    map category (dataPoints vm) = ["A"; "A"; "B"; "B"] /\
    map value (dataPoints vm) = [VNum 20; VNum 15; VNum 100; VNum 50].
Proof.
  destruct (@visualTransform_two_points_per_category runtime host
              _ _ _ _ _ _ 2%nat _ _ (VStr "#111111") (VStr "#222222") 0%nat
              (query_passesGuard (Some colours) categoryAB []
                 [firstSeries; secondSeries] categoryAB_source)
              eq_refl eq_refl eq_refl eq_refl eq_refl eq_refl eq_refl)
    as (vm & s' & Hrun & Hlen & _).
  exists vm, s'. split; [exact Hrun |]. split; [exact Hlen |].
  cbn in Hrun. inversion Hrun; subst vm s'. repeat split.
Defined.

Lemma guard_witness :
  fst (visualTransform noData 0%nat) = Ok emptyViewModel /\
  fst (visualTransform (query None [] [firstSeries; secondSeries]) 0%nat)
    = Throw TypeError.
Proof.
  split.
  - apply (proj1 (@visualTransform_guard runtime host noData 0%nat)).
    left. reflexivity.
  - apply (proj2 (@visualTransform_guard runtime host
                    (query None [] [firstSeries; secondSeries]) 0%nat)
             (view None [] [firstSeries; secondSeries]) []
             {| categories := Some []; values := Some [firstSeries; secondSeries] |});
      reflexivity.
Defined.

Lemma unrecognized_witness :
  enumerateObjectInstances "legend" drawnOnce = (Ok [], drawnOnce).
Proof.
  apply (@enumerateObjectInstances_unrecognized host "legend" drawnOnce);
    discriminate.
Defined.

Lemma enumerate_after_update_witness :
  exists l, enumerateObjectInstances "colorSelector" drawnOnce = (Ok l, drawnOnce)
            /\ (List.length l <= 1)%nat.
Proof.
  exact (proj1 (@enumerateObjectInstances_after_update runtime host d3 _ _ _
                  update_drawnOnce) "colorSelector").
Defined.

Lemma update_drawnTranslucent :
  update (twoSeries (Some translucent)) (constructor 0%nat)
  = (Ok tt, drawnTranslucent).
Proof. vm_compute. reflexivity. Qed.

Lemma update_drawnRagged :
  update ragged (constructor 0%nat) = (Ok tt, drawnRagged).
Proof. vm_compute. reflexivity. Qed.

Lemma colours_resolve :
  fillsResolve (Some colours) (VStr "#111111") (VStr "#222222").
Proof. eexists _, _. repeat split. Qed.

(** The two series are drawable; the single series is not. *)
Lemma returns_iff_witness :
  (exists vm s',
      visualTransform (twoSeries (Some colours)) 0%nat = (Ok vm, s')) /\
  fst (visualTransform oneSeries 0%nat) = Throw TypeError.
Proof.
  split.
  - apply (proj1 (@visualTransform_returns_iff runtime host _ _ _ _ 0%nat
                    (query_passesGuard (Some colours) categoryAB []
                       [firstSeries; secondSeries] categoryAB_source))).
    exists firstSeries, secondSeries, (VStr "#111111"), (VStr "#222222").
    split; [reflexivity |]. split; [reflexivity | exact colours_resolve].
  - apply (proj2 (@visualTransform_returns_iff runtime host _ _ _ _ 0%nat
                    (query_passesGuard (Some colours) categoryAB []
                       [firstSeries] categoryAB_source))).
    intros vm s' H. vm_compute in H. discriminate H.
Defined.

(** The opacity is the persisted 50; [show] and [y2trim] are defaults. *)
Lemma settings_witness :
  exists vm s',
    visualTransform (twoSeries (Some translucent)) 0%nat = (Ok vm, s') /\
    settings vm =
      {| enableAxis := Some {| show := VBool true |};
         colorSelector :=
           Some {| color1 := VStr "#111111"; color2 := VStr "#222222" |};
         generalView := Some {| opacity := VNum 50; y2trim := VNum 120 |} |}.
Proof.
  eexists _, _. split; [lazy; reflexivity |].
  destruct (@visualTransform_settings runtime host _ _ _ _ 0%nat _ _
              (query_passesGuard (Some translucent) categoryAB []
                 [firstSeries; secondSeries] categoryAB_source) eq_refl)
    as (v1 & v2 & k1 & k2 & _ & _ & (f1 & f2 & E1 & C1 & E2 & C2) & Hs & _).
  cbn in E1, E2. inversion E1; subst f1. inversion E2; subst f2.
  cbn in C1, C2. inversion C1; subst k1. inversion C2; subst k2.
  exact Hs.
Defined.

Lemma ragged_witness :
  exists vm s',
    visualTransform ragged 0%nat = (Ok vm, s') /\
    List.length (dataPoints vm) = 6%nat /\
    map category (dataPoints vm)
      = ["A"; "A"; "B"; "B"; "undefined"; "undefined"] /\
    map value (dataPoints vm)
      = [VNum 20; VNum 15; VNum 100; VUndefined; VNum 60; VUndefined].
Proof.
  eexists _, _. split; [lazy; reflexivity |].
  destruct (@visualTransform_ragged runtime host ragged _ _ _ 0%nat _ _
              (query_passesGuard (Some colours) categoryAB [] _
                 categoryAB_source)
              eq_refl)
    as (v1 & v2 & Hv1 & _ & Hlen & _).
  cbn in Hv1. inversion Hv1; subst v1.
  split; [exact Hlen |]. split; reflexivity.
Defined.

(** An update that throws while resolving the settings, after one that
    drew four bars. *)
Lemma failed_transform_witness :
  let after := snd (update (twoSeries None) drawnOnce) in
  fst (update (twoSeries None) drawnOnce) = Throw TypeError /\
  bars after = bars drawnOnce /\
  barChartSettings after = barChartSettings drawnOnce.
Proof.
  destruct (@update_failed_transform_keeps_visual runtime host d3
              (twoSeries None) drawnOnce TypeError eq_refl)
    as (H1 & _ & H2 & _ & _ & _ & _ & _ & _ & H3 & _).
  split; [exact H1 |]. split; [exact H3 | exact H2].
Defined.

(** The data removed after four bars were drawn: the bars stay. *)
Lemma guard_path_witness :
  let after := snd (update noData drawnOnce) in
  fst (update noData drawnOnce) = Throw TypeError /\
  barDataPoints after = Some [] /\
  List.length (bars after) = 4%nat /\
  fst (enumerateObjectInstances "generalView" after) = Throw TypeError.
Proof.
  destruct (@update_guard_path_keeps_bars runtime host d3 noData drawnOnce
              eq_refl)
    as (H1 & _ & H2 & _ & H3 & _ & _ & _ & _ & _ & H4).
  split; [exact H1 |]. split; [exact H2 |].
  split; [rewrite H3; reflexivity |].
  apply H4. right. right. reflexivity.
Defined.

(** A click before the second update leaves no trace in what it draws. *)
Lemma overwrites_witness :
  update (twoSeries (Some colours)) (click 2 [] drawnOnce)
  = (Ok tt, drawnTwice).
Proof.
  apply (@update_overwrites runtime host d3 (twoSeries (Some colours))
           drawnOnce (click 2 [] drawnOnce) drawnTwice).
  - reflexivity.
  - vm_compute. reflexivity.
Defined.

Lemma update_twice_witness :
  exists st2,
    update (twoSeries (Some colours)) drawnOnce = (Ok tt, st2) /\
    yAxis st2 = yAxis drawnOnce /\ yAxis2 st2 = yAxis2 drawnOnce /\
    Forall2 sameBar (bars drawnOnce) (bars st2).
Proof.
  destruct (@update_twice_draws_the_same runtime host d3 _ _ _
              sample_deterministicPalette sample_deterministicBuilder
              update_drawnOnce)
    as (st2 & H & _ & _ & _ & Hy & Hy2 & _ & Hbars).
  exists st2. auto.
Defined.

(** A click on the first bar of row B, answered with one identifier. *)
Lemma click_partner_witness :
  let ids := [ {| sid_column := "Category"; sid_index := 1; sid_serial := 6 |} ] in
  exists P S P' S',
    nth_error (bars drawnOnce) 2 = Some P /\
    nth_error (bars drawnOnce) 3 = Some S /\
    category (datum P) = category (datum S) /\
    equals (selectionId (datum P)) (selectionId (datum S)) = true /\
    nth_error (bars (click 2 ids drawnOnce)) 2 = Some P' /\
    nth_error (bars (click 2 ids drawnOnce)) 3 = Some S' /\
    shape P' = shape P /\ shape S' = shape S /\
    fill_opacity P' = Some 1%Q /\ fill_opacity S' = Some (1 # 2)%Q.
Proof.
  refine (@click_dims_the_partner runtime host d3 _ _ _ 1%nat _
            sample_deterministicBuilder update_drawnOnce eq_refl _ _).
  - cbn. lia.
  - discriminate.
Defined.

Lemma overlay_witness :
  exists P S,
    nth_error (bars drawnOnce) 2 = Some P /\
    nth_error (bars drawnOnce) 3 = Some S /\
    attr_width P = Some 156%Q /\ attr_width S = Some 78%Q /\
    nadd (attr_x S) (ndiv (attr_width S) (Some 2%Q)) =
      nadd (attr_x P) (ndiv (attr_width P) (Some 2%Q)) /\
    numEq (nadd (attr_y S) (attr_height S)) (Some 200%Q).
Proof.
  destruct (@paired_bars_overlay runtime host d3 _ _ _ 1%nat update_drawnOnce)
    as (P & S & settings & axis & yScale & yScale2 & HP & HS & Hs & Ha & Hy
        & Hy2 & _ & _ & _ & Hw & Hc & Hbottom).
  - cbn. lia.
  - exists P, S. split; [exact HP |]. split; [exact HS |].
    cbn in HP, HS, Hs, Hy, Hy2.
    inversion HP; subst P. inversion HS; subst S. inversion Hs; subst settings.
    cbn in Ha. inversion Ha; subst axis.
    inversion Hy; subst yScale. inversion Hy2; subst yScale2.
    split; [reflexivity |]. split; [reflexivity |]. split; [exact Hc |].
    apply (Hbottom _ (or_intror eq_refl)); vm_compute; discriminate.
Defined.

(** The entries reported for the opacity-50 drawing, persisted and read
    back. *)
Lemma round_trip_witness :
  exists l1 l2 l3 vm s',
    enumerateObjectInstances "enableAxis" drawnTranslucent
      = (Ok l1, drawnTranslucent) /\
    enumerateObjectInstances "colorSelector" drawnTranslucent
      = (Ok l2, drawnTranslucent) /\
    enumerateObjectInstances "generalView" drawnTranslucent
      = (Ok l3, drawnTranslucent) /\
    visualTransform (twoSeries (Some (persist (l1 ++ l2 ++ l3)))) 0%nat
      = (Ok vm, s') /\
    barChartSettings drawnTranslucent = Some (settings vm).
Proof.
  destruct (@formatting_pane_round_trip runtime host d3 _ _ _
              update_drawnTranslucent)
    as (l1 & l2 & l3 & E1 & E2 & E3 & Hrt).
  destruct (Hrt (twoSeries (Some (persist (l1 ++ l2 ++ l3)))) _ _ _ 0%nat
              (query_passesGuard _ categoryAB [] [firstSeries; secondSeries]
                 categoryAB_source) eq_refl)
    as (Hset & Hret).
  destruct (Hret _ _ eq_refl eq_refl) as (vm & s' & Hrun).
  exists l1, l2, l3, vm, s'.
  repeat (split; [assumption |]). exact (Hset _ _ Hrun).
Defined.

(** The first bar has a tooltip; the second-axis bar of row B, beyond the
    end of the second series, has none. *)
Lemma tooltip_witness :
  exists b0 b3,
    nth_error (bars drawnRagged) 0 = Some b0 /\
    nth_error (bars drawnRagged) 3 = Some b3 /\
    getTooltipData "en-US" (datum b0) =
      Ok [ {| tip_displayName := "A"; tip_value := "20";
              tip_color := VStr "#111111"; tip_header := "" |} ] /\
    getTooltipData "en-US" (datum b3) = Throw TypeError.
Proof.
  destruct (@tooltip_after_update runtime host d3 localization _ _ _ "en-US"
              update_drawnRagged) as (Hshown & Hthrows).
  eexists _, _. split; [reflexivity |]. split; [reflexivity |].
  split.
  - refine (Hshown _ VUndefined (or_introl eq_refl) eq_refl _ _); discriminate.
  - refine (Hthrows _ _ _ _ _ 1%nat _
              (query_passesGuard (Some colours) categoryAB [] _ categoryAB_source)
              eq_refl eq_refl _).
    right. split; [cbn; lia | reflexivity].
Defined.
